(** * MAFC: the conversation orchestrator and its text-generation client

    A shallow embedding of [AgentSystem] (the four-stage conversation
    orchestrator) and of [callGemini] (the single-request client of the
    generation endpoint), with the properties of the specification stated
    and proved over it.

    Conventions of the embedding.
    - A JavaScript string is a [string] holding its UTF-8 bytes.  Substring
      search on well-formed UTF-8 agrees with search on code units, and the
      code only ever combines [indexOf] with [substring] on the same string,
      so byte offsets stand for code-unit offsets.
    - An [async] function is split at its [await]: the synchronous prefix
      (which ends by issuing the request) and the continuation that runs
      when the reply is delivered.  What is suspended is recorded as a
      [Frame].
    - Between two suspensions the code runs without interruption: calls
      from the page and replies of the network are tasks of the event
      loop and only run while the instance is suspended or idle.  The two
      [await]s of [callGemini] (the response, then its body) touch no field
      of the instance in between and are delivered as one reply.
    - The callbacks handed to the constructor and the outbound requests are
      recorded, in order, in a trace kept next to the instance's fields. *)

From Stdlib Require Import String Ascii List ZArith NArith Lia Bool Arith.
From Stdlib Require Import DecimalString.
Import ListNotations.

Open Scope string_scope.

(** ** JavaScript string primitives *)

Module JsString.

Definition dquote : string := String (ascii_of_nat 34) EmptyString.
Definition newline : string := String (ascii_of_nat 10) EmptyString.

(** [s.startsWith(needle)] at offset 0. *)
Definition startsWith (needle s : string) : bool := String.prefix needle s.
Arguments startsWith : simpl never.

(** [s.includes(needle)] *)
Fixpoint includes (needle s : string) : bool :=
  startsWith needle s ||
  match s with
  | EmptyString => false
  | String _ rest => includes needle rest
  end.

Fixpoint indexOfFrom (needle s : string) (i : nat) : option nat :=
  if startsWith needle s then Some i
  else match s with
       | EmptyString => None
       | String _ rest => indexOfFrom needle rest (S i)
       end.

(** [s.indexOf(needle)]: the first offset, [-1] when there is none. *)
Definition indexOf (needle s : string) : Z :=
  match indexOfFrom needle s 0 with
  | Some i => Z.of_nat i
  | None => (-1)%Z
  end.

Fixpoint drop (n : nat) (s : string) : string :=
  match n, s with
  | O, _ => s
  | S n', String _ rest => drop n' rest
  | S _, EmptyString => EmptyString
  end.

Fixpoint take (n : nat) (s : string) : string :=
  match n, s with
  | O, _ => EmptyString
  | S n', String c rest => String c (take n' rest)
  | S _, EmptyString => EmptyString
  end.

Definition clamp (len i : Z) : Z := Z.max 0 (Z.min i len).

(** [s.substring(a, b)]: both ends clamped to [0 .. length], swapped when
    out of order. *)
Definition substring (s : string) (a b : Z) : string :=
  let len := Z.of_nat (String.length s) in
  let a' := clamp len a in
  let b' := clamp len b in
  let lo := Z.min a' b' in
  let hi := Z.max a' b' in
  take (Z.to_nat (hi - lo)) (drop (Z.to_nat lo) s).

(** [s.substring(a)] *)
Definition substringFrom (s : string) (a : Z) : string :=
  substring s a (Z.of_nat (String.length s)).

Fixpoint rev_onto (s acc : string) : string :=
  match s with
  | EmptyString => acc
  | String c rest => rev_onto rest (String c acc)
  end.

Definition rev (s : string) : string := rev_onto s EmptyString.

(** White space and line terminators of ECMAScript, in UTF-8:
    U+0009..U+000D, U+0020; U+00A0; U+1680, U+2000..U+200A, U+2028,
    U+2029, U+202F, U+205F, U+3000, U+FEFF. *)
Definition ws1 (c : ascii) : bool :=
  let n := nat_of_ascii c in
  (((9 <=? n) && (n <=? 13)) || (n =? 32))%nat.

Definition ws2 (c1 c2 : ascii) : bool :=
  ((nat_of_ascii c1 =? 194) && (nat_of_ascii c2 =? 160))%nat.

Definition ws3 (c1 c2 c3 : ascii) : bool :=
  let a := nat_of_ascii c1 in
  let b := nat_of_ascii c2 in
  let c := nat_of_ascii c3 in
  (((a =? 225) && (b =? 154) && (c =? 128)) ||
   ((a =? 226) && (b =? 128) &&
      (((128 <=? c) && (c <=? 138)) || (c =? 168) || (c =? 169) || (c =? 175))) ||
   ((a =? 226) && (b =? 129) && (c =? 159)) ||
   ((a =? 227) && (b =? 128) && (c =? 128)) ||
   ((a =? 239) && (b =? 187) && (c =? 191)))%nat.

(** Drops leading characters recognised by the three tests. *)
Fixpoint strip (w1 : ascii -> bool) (w2 : ascii -> ascii -> bool)
         (w3 : ascii -> ascii -> ascii -> bool) (s : string) : string :=
  match s with
  | EmptyString => s
  | String c1 s1 =>
      if w1 c1 then strip w1 w2 w3 s1
      else match s1 with
           | EmptyString => s
           | String c2 s2 =>
               if w2 c1 c2 then strip w1 w2 w3 s2
               else match s2 with
                    | EmptyString => s
                    | String c3 s3 =>
                        if w3 c1 c2 c3 then strip w1 w2 w3 s3 else s
                    end
           end
  end.

Definition trimStart (s : string) : string := strip ws1 ws2 ws3 s.

(** The tests read from the end of the string. *)
Definition flip2 (w2 : ascii -> ascii -> bool) : ascii -> ascii -> bool :=
  fun a b => w2 b a.

Definition flip3 (w3 : ascii -> ascii -> ascii -> bool)
  : ascii -> ascii -> ascii -> bool :=
  fun a b c => w3 c b a.

Definition trimEnd (s : string) : string :=
  rev (strip ws1 (flip2 ws2) (flip3 ws3) (rev s)).

(** [s.trim()] *)
Definition trim (s : string) : string := trimStart (trimEnd s).

(** [String(n)] for a non-negative integer. *)
Definition ofNumber (n : N) : string := NilZero.string_of_uint (N.to_uint n).

(** [lines.join("\n")] *)
Definition joinLines (lines : list string) : string :=
  String.concat newline lines.

(** Strings made of recognised characters only. *)
Inductive BlankBy (w1 : ascii -> bool) (w2 : ascii -> ascii -> bool)
          (w3 : ascii -> ascii -> ascii -> bool) : string -> Prop :=
| blank_nil : BlankBy w1 w2 w3 EmptyString
| blank_1 c s : w1 c = true -> BlankBy w1 w2 w3 s -> BlankBy w1 w2 w3 (String c s)
| blank_2 c1 c2 s :
    w2 c1 c2 = true -> BlankBy w1 w2 w3 s ->
    BlankBy w1 w2 w3 (String c1 (String c2 s))
| blank_3 c1 c2 c3 s :
    w3 c1 c2 c3 = true -> BlankBy w1 w2 w3 s ->
    BlankBy w1 w2 w3 (String c1 (String c2 (String c3 s))).

(** A string of white space only (the empty string included). *)
Definition Blank : string -> Prop := BlankBy ws1 ws2 ws3.

(** An occurrence of [m] in [s]: a decomposition around it. *)
Definition occurs (m s : string) : Prop :=
  exists pre post, s = pre ++ m ++ post.

(** The decomposition around the first occurrence: no occurrence of [m]
    starts inside [pre]. *)
Definition first_split (m s pre post : string) : Prop :=
  s = pre ++ m ++ post /\
  forall k, k < String.length pre -> startsWith m (drop k s) = false.

End JsString.

(** ** The text-generation client ([callGemini]) *)

Module Llm.
Import JsString.

(** A thrown value: an instance of [Error] (with its [name] and
    [message]) or anything else. *)
Record JsError := mkError { errName : string; errMessage : string }.

Inductive Thrown :=
| ThrownError (e : JsError)
| ThrownOther (description : string).

(** [new Error(msg)] *)
Definition newError (msg : string) : JsError :=
  {| errName := "Error"; errMessage := msg |}.

(** The [TypeError] of a property read on [undefined]. *)
Definition readOfUndefined (property : string) : JsError :=
  {| errName := "TypeError";
     errMessage := "Cannot read properties of undefined (reading '"
                   ++ property ++ "')" |}.

(** *** The request *)

Record TextPart := { partText : string }.

Record ContentBlock := { blockRole : option string; blockParts : list TextPart }.

Record GenerationConfig := { temperature : string; maxOutputTokens : N }.

Record RequestBody := {
  contents : list ContentBlock;
  generationConfig : GenerationConfig;
  systemInstructionField : option ContentBlock
}.

Record Request := {
  url : string;
  method : string;
  headers : list (string * string);
  body : RequestBody
}.

(** *** The reply.  [response.json()] is taken at the shape the code
    dereferences: every link of [data.candidates[0].content.parts[0].text]
    may be missing; a part that is there carries a string, the declared
    result type of [callGemini]. *)

Record CandidateContent := { candParts : option (list TextPart) }.

Record Candidate := { candContent : option CandidateContent }.

Record ResponseData := { candidates : option (list Candidate) }.

Record Response := {
  ok : bool;
  status : N;
  statusText : string;
  readText : Thrown + string;       (* [await response.text()] *)
  readJson : Thrown + ResponseData  (* [await response.json()] *)
}.

(** How the network answers one [fetch]. *)
Inductive FetchOutcome :=
| FetchRejected (t : Thrown)
| FetchFulfilled (r : Response).

(** [!apiKey || apiKey.trim() === ''] *)
Definition credentialMissing (apiKey : string) : bool :=
  (apiKey =? EmptyString) || (trim apiKey =? EmptyString).

Definition configurationError : JsError :=
  newError "API key is empty or missing".

Definition noCandidatesError : JsError :=
  newError "No candidates returned from API".

Definition unknownError : JsError :=
  newError "Unknown error occurred during API call".

Definition apiError (r : Response) (errorText : string) : JsError :=
  newError ("API Error " ++ ofNumber (status r) ++ ": " ++ statusText r
            ++ ". " ++ errorText).

Definition endpoint (model apiKey : string) : string :=
  "https://generativelanguage.googleapis.com/v1beta/models/" ++ model
  ++ ":generateContent?key=" ++ apiKey.

(** [if (systemInstruction)]: present and not the empty string. *)
Definition truthy (systemInstruction : option string) : option string :=
  match systemInstruction with
  | Some EmptyString => None
  | other => other
  end.

Definition buildBody (prompt : string) (systemInstruction : option string)
  : RequestBody :=
  {| contents := [ {| blockRole := Some "user";
                      blockParts := [ {| partText := prompt |} ] |} ];
     generationConfig := {| temperature := "0.7"; maxOutputTokens := 2000 |};
     systemInstructionField :=
       match truthy systemInstruction with
       | Some text =>
           Some {| blockRole := None; blockParts := [ {| partText := text |} ] |}
       | None => None
       end |}.

(** The synchronous prefix of [callGemini]: the credential check, then the
    request handed to [fetch]. *)
Definition callGemini_request (apiKey model prompt : string)
           (systemInstruction : option string) : Thrown + Request :=
  if credentialMissing apiKey then inl (ThrownError configurationError)
  else inr {| url := endpoint model apiKey;
              method := "POST";
              headers := [ ("Content-Type", "application/json") ];
              body := buildBody prompt systemInstruction |}.

(** [data.candidates[0].content.parts[0].text] *)
Definition firstCandidateText (c : Candidate) : Thrown + string :=
  match candContent c with
  | None => inl (ThrownError (readOfUndefined "parts"))
  | Some content =>
      match candParts content with
      | None => inl (ThrownError (readOfUndefined "0"))
      | Some [] => inl (ThrownError (readOfUndefined "text"))
      | Some (p :: _) => inr (partText p)
      end
  end.

(** The body of the [try] block once [fetch] has settled. *)
Definition tryBlock (o : FetchOutcome) : Thrown + string :=
  match o with
  | FetchRejected t => inl t
  | FetchFulfilled r =>
      if negb (ok r) then
        match readText r with
        | inl t => inl t
        | inr errorText => inl (ThrownError (apiError r errorText))
        end
      else
        match readJson r with
        | inl t => inl t
        | inr data =>
            match candidates data with
            | Some (c :: _) => firstCandidateText c
            | Some [] | None => inl (ThrownError noCandidatesError)
            end
        end
  end.

(** The [catch] clause: an [Error] is thrown again as it is, anything else
    becomes a fresh [Error]. *)
Definition catchClause (t : Thrown) : Thrown :=
  match t with
  | ThrownError e => ThrownError e
  | ThrownOther _ => ThrownError unknownError
  end.

(** The continuation of [callGemini] after its [await]s. *)
Definition callGemini_reply (o : FetchOutcome) : Thrown + string :=
  match tryBlock o with
  | inl t => inl (catchClause t)
  | inr text => inr text
  end.

(** One whole invocation against a network that answers [net]: the
    requests sent, in order, and how the returned promise settles. *)
Definition callGemini (net : Request -> FetchOutcome)
           (apiKey model prompt : string) (systemInstruction : option string)
  : list Request * (Thrown + string) :=
  match callGemini_request apiKey model prompt systemInstruction with
  | inl t => ([], inl t)
  | inr req => ([req], callGemini_reply (net req))
  end.

(** A well-formed success reply carrying [text] as its first candidate. *)
Definition okReply (text : string) : FetchOutcome :=
  let data :=
    {| candidates :=
         Some [ {| candContent :=
                     Some {| candParts := Some [ {| partText := text |} ] |} |} ] |} in
  FetchFulfilled {| ok := true; status := 200; statusText := "OK";
                    readText := inr EmptyString; readJson := inr data |}.

(** A reply with a non-success status and the given body. *)
Definition failReply (code : N) (reason bodyText : string) : FetchOutcome :=
  FetchFulfilled {| ok := false; status := code; statusText := reason;
                    readText := inr bodyText;
                    readJson := inl (ThrownError
                                       {| errName := "SyntaxError";
                                          errMessage := "Unexpected token" |}) |}.

End Llm.

(** ** The conversation orchestrator ([AgentSystem]) *)

Module Agents.
Import JsString Llm.

Inductive AgentRole := PROFILER | SPECIALIST | CRITIC | HOST.

Inductive MessageRole := user | agent | system.

Record Message := {
  id : string;
  role : MessageRole;
  content : string;
  agentName : option string;
  timestamp : N
}.

Record AgentState := {
  currentRole : AgentRole;
  userProfile : string;
  currentDemand : string;
  recommendations : string;
  history : list Message;
  stateHistory : list AgentRole
}.

(** What the instance does to the outside, in order: the two callbacks
    and the requests handed to [fetch]. *)
Inductive Event :=
| AgentChange (agentLabel : string)
| MessageUpdate (msgs : list Message)
| Fetch (req : Request).

(** An instance: its fields, the trace of what it has done so far, and
    the number of messages it has built (the index into the clock and
    random source). *)
Record AgentSystem := {
  state : AgentState;
  apiKey : string;
  model : string;
  trace : list Event;
  built : nat
}.

Definition AgentRole_eqb (a b : AgentRole) : bool :=
  match a, b with
  | PROFILER, PROFILER | SPECIALIST, SPECIALIST
  | CRITIC, CRITIC | HOST, HOST => true
  | _, _ => false
  end.

(** [`${m.role}`] *)
Definition roleName (r : MessageRole) : string :=
  match r with
  | user => "user"
  | agent => "agent"
  | system => "system"
  end.

Definition profileMarker : string := "||PROFILE_READY||".
Definition demandMarker : string := "||DEMAND_LOCKED||".

Definition backwardKeywords : list string :=
  [ "返回"; "上一步"; "回去"; "退回"; "重新"; "重来" ].

Definition isBackwardRequest (text : string) : bool :=
  existsb (fun keyword => includes keyword text) backwardKeywords.

Definition getAgentName (r : AgentRole) : string :=
  match r with
  | PROFILER => "Profiler"
  | SPECIALIST => "Genre Specialist"
  | CRITIC => "Critic"
  | HOST => "Host"
  end.

(** [xs.slice(-limit)]: the last [limit] elements; [slice(-0)] is
    [slice(0)], the whole array. *)
Definition sliceLast {A : Type} (limit : nat) (xs : list A) : list A :=
  if (limit =? 0)%nat then xs else skipn (List.length xs - limit) xs.

Definition formatMessage (m : Message) : string :=
  roleName (role m) ++ ": " ++ content m.

(** *** Field updates *)

Definition withState (s : AgentSystem) (st : AgentState) : AgentSystem :=
  {| state := st; apiKey := apiKey s; model := model s;
     trace := trace s; built := built s |}.

Definition emit (ev : Event) (s : AgentSystem) : AgentSystem :=
  {| state := state s; apiKey := apiKey s; model := model s;
     trace := (trace s ++ [ev])%list; built := built s |}.

Definition setCurrentRole (r : AgentRole) (st : AgentState) : AgentState :=
  {| currentRole := r; userProfile := userProfile st;
     currentDemand := currentDemand st; recommendations := recommendations st;
     history := history st; stateHistory := stateHistory st |}.

Definition setUserProfile (v : string) (st : AgentState) : AgentState :=
  {| currentRole := currentRole st; userProfile := v;
     currentDemand := currentDemand st; recommendations := recommendations st;
     history := history st; stateHistory := stateHistory st |}.

Definition setCurrentDemand (v : string) (st : AgentState) : AgentState :=
  {| currentRole := currentRole st; userProfile := userProfile st;
     currentDemand := v; recommendations := recommendations st;
     history := history st; stateHistory := stateHistory st |}.

Definition setRecommendations (v : string) (st : AgentState) : AgentState :=
  {| currentRole := currentRole st; userProfile := userProfile st;
     currentDemand := currentDemand st; recommendations := v;
     history := history st; stateHistory := stateHistory st |}.

Definition setHistoryField (h : list Message) (st : AgentState) : AgentState :=
  {| currentRole := currentRole st; userProfile := userProfile st;
     currentDemand := currentDemand st; recommendations := recommendations st;
     history := h; stateHistory := stateHistory st |}.

Definition setStateHistory (l : list AgentRole) (st : AgentState) : AgentState :=
  {| currentRole := currentRole st; userProfile := userProfile st;
     currentDemand := currentDemand st; recommendations := recommendations st;
     history := history st; stateHistory := l |}.

(** *** Where an [async] method can be suspended *)

Inductive Frame :=
| InRunProfiler     (* [runProfiler], awaited by [processUserMessage] *)
| InRunSpecialist   (* [runSpecialist], awaited by [processUserMessage] *)
| InRunHost         (* [runHost], awaited by [processUserMessage] *)
| InCriticStep      (* [runCriticAndHost], at the critic call *)
| InHostStep.       (* [runCriticAndHost], at the host call *)

Inductive Settled :=
| Fulfilled
| RejectedWith (t : Thrown).

(** The state of a promise: settled, or waiting for a reply. *)
Inductive Status :=
| Done (r : Settled)
| Awaiting (f : Frame).

(** *** The prompt templates *)

Definition profilerPrompt (userInput context : string) : string :=
  joinLines
    [ EmptyString;
      "      User Input: " ++ dquote ++ userInput ++ dquote;
      "      Conversation History:";
      "      " ++ context;
      "      ";
      "      CRITICAL: You must ALWAYS output the ||PROFILE_READY|| marker after analyzing user's response!";
      "      Format: First provide your response, then on a new line add: ||PROFILE_READY|| [keywords]";
      "      ";
      "      Example output:";
      "      Your analysis and question...";
      "      ";
      "      ||PROFILE_READY|| keyword1, keyword2, keyword3";
      "    " ].

Definition specialistPrompt (userProfile userInput context : string) : string :=
  joinLines
    [ EmptyString;
      "        User Profile (Known): " ++ userProfile;
      "        Current Input: " ++ dquote ++ userInput ++ dquote;
      "        History: " ++ context;
      "      " ].

Definition criticPrompt (userProfile currentDemand : string) : string :=
  joinLines
    [ EmptyString;
      "          User Profile: " ++ userProfile;
      "          Current Request: " ++ currentDemand;
      "          ";
      "          Analyze and recommend 2 perfect movies. Return ONLY the JSON-like format as specified in your instructions.";
      "      " ].

Definition hostPrompt (recommendations userProfile currentDemand : string)
  : string :=
  joinLines
    [ EmptyString;
      "        Critic Recommendations:";
      "        " ++ recommendations;
      "        ";
      "        User Profile: " ++ userProfile;
      "        User Request: " ++ currentDemand;
      "        ";
      "        Present these to the user warmly.";
      "      " ].

Definition hostChatPrompt (userInput context recommendations : string)
  : string :=
  joinLines
    [ EmptyString;
      "         User Input: " ++ userInput;
      "         History: " ++ context;
      "         Previous Recommendations: " ++ recommendations;
      "         ";
      "         Continue chatting, answer questions about the recommendation, or recommend something else if they hate it.";
      "      " ].

Definition firstStepNotice : string :=
  "已经是第一步了，无法返回更早的阶段。".
Definition profilerRestart : string :=
  "好的，让我们重新开始。请告诉我您最喜欢的三部电影？".
Definition specialistRestart : string :=
  "明白，让我们重新确认。您今天想看什么类型的电影？刺激的、感动的还是轻松的？".
Definition hostRestart : string :=
  "好的，有什么需要我重新推荐的吗？".

(** [`错误: ${errorMsg}。请检查您的 API Key 和网络连接。`] *)
Definition errorNotice (errorMsg : string) : string :=
  "错误: " ++ errorMsg ++ "。请检查您的 API Key 和网络连接。".

Section Orchestrator.

(** The prompt library ([PROMPTS], one system instruction per stage),
    the clock and the random source are not part of the orchestrator:
    [Date_now n] is what the [n]-th read of the clock returns and
    [Math_random n] the base-36 digits kept from the [n]-th draw. *)
Variable PROMPTS : AgentRole -> string.
Variable Date_now : nat -> N.
Variable Math_random : nat -> string.

Definition construct (key mdl : string) : AgentSystem :=
  {| state := {| currentRole := PROFILER;
                 userProfile := EmptyString;
                 currentDemand := EmptyString;
                 recommendations := EmptyString;
                 history := [];
                 stateHistory := [PROFILER] |};
     apiKey := key; model := mdl; trace := []; built := 0 |}.

(** [setHistory] stores the caller's array itself; the messages the
    instance pushes later land in that array.  Nothing below depends on
    the sharing, so the field holds the list by value. *)
Definition setHistory (h : list Message) (s : AgentSystem) : AgentSystem :=
  withState s (setHistoryField h (state s)).

Definition onAgentChange (label : string) (s : AgentSystem) : AgentSystem :=
  emit (AgentChange label) s.

Definition transitionTo (newRole : AgentRole) (s : AgentSystem) : AgentSystem :=
  let st := state s in
  let st := setStateHistory (stateHistory st ++ [newRole])%list st in
  withState s (setCurrentRole newRole st).

Definition newAgentMessage (n : nat) (name text : string) : Message :=
  {| id := "agent-" ++ ofNumber (Date_now (2 * n)) ++ "-" ++ Math_random n;
     role := agent;
     agentName := Some name;
     content := text;
     timestamp := Date_now (2 * n + 1) |}.

Definition addAgentMessage (name text : string) (s : AgentSystem)
  : AgentSystem :=
  let msg := newAgentMessage (built s) name text in
  let st := setHistoryField (history (state s) ++ [msg])%list (state s) in
  {| state := st; apiKey := apiKey s; model := model s;
     trace := (trace s ++ [MessageUpdate [msg]])%list;
     built := S (built s) |}.

Definition addSystemMessage (text : string) (s : AgentSystem) : AgentSystem :=
  addAgentMessage "System" text s.

Definition buildContext (limit : nat) (s : AgentSystem) : string :=
  joinLines (map formatMessage (sliceLast limit (history (state s)))).

(** [goBack]: the instance afterwards and the returned flag.  After the
    guard the popped stack is not empty, so the default of [last] is
    never taken. *)
Definition goBack (s : AgentSystem) : AgentSystem * bool :=
  if (List.length (stateHistory (state s)) <=? 1)%nat then
    (addAgentMessage "System" firstStepNotice s, false)
  else
    let popped := removelast (stateHistory (state s)) in
    let previousRole := last popped (currentRole (state s)) in
    let st := setCurrentRole previousRole (setStateHistory popped (state s)) in
    let s := withState s st in
    (match previousRole with
     | PROFILER =>
         let st := setRecommendations EmptyString
                     (setCurrentDemand EmptyString
                        (setUserProfile EmptyString (state s))) in
         addAgentMessage "Profiler" profilerRestart (withState s st)
     | SPECIALIST =>
         let st := setRecommendations EmptyString
                     (setCurrentDemand EmptyString (state s)) in
         addAgentMessage "Genre Specialist" specialistRestart (withState s st)
     | HOST => addAgentMessage "Host" hostRestart s
     | CRITIC => s
     end, true).

(** [await callGemini(this.apiKey, this.model, prompt, instruction)] up
    to the point where the caller is suspended. *)
Definition beginCall (prompt instruction : string) (s : AgentSystem)
  : AgentSystem * (Thrown + unit) :=
  match callGemini_request (apiKey s) (model s) prompt (Some instruction) with
  | inl t => (s, inl t)
  | inr req => (emit (Fetch req) s, inr tt)
  end.

Definition runProfiler_begin (userInput : string) (s : AgentSystem)
  : AgentSystem * (Thrown + unit) :=
  let context := buildContext 5 s in
  beginCall (profilerPrompt userInput context) (PROMPTS PROFILER) s.

Definition runProfiler_resume (response : string) (s : AgentSystem)
  : AgentSystem :=
  if includes profileMarker response then
    let markerIndex := indexOf profileMarker response in
    let reply := trim (substring response 0 markerIndex) in
    let profileData :=
      trim (substringFrom response
              (markerIndex + Z.of_nat (String.length profileMarker))) in
    let s := withState s (setUserProfile profileData (state s)) in
    let s := addAgentMessage "Profiler" reply s in
    transitionTo SPECIALIST s
  else
    addAgentMessage "Profiler" response s.

Definition runSpecialist_begin (userInput : string) (s : AgentSystem)
  : AgentSystem * (Thrown + unit) :=
  let context := buildContext 5 s in
  beginCall (specialistPrompt (userProfile (state s)) userInput context)
            (PROMPTS SPECIALIST) s.

(** [runCriticAndHost] up to its first [await]. *)
Definition runCriticAndHost_begin (s : AgentSystem) : AgentSystem * Status :=
  let s := onAgentChange "Critic Agent" s in
  let prompt :=
    criticPrompt (userProfile (state s)) (currentDemand (state s)) in
  match beginCall prompt (PROMPTS CRITIC) s with
  | (s, inl t) => (s, Done (RejectedWith t))
  | (s, inr _) => (s, Awaiting InCriticStep)
  end.

(** [runCriticAndHost] between its two [await]s. *)
Definition runCriticAndHost_afterCritic (r : Thrown + string) (s : AgentSystem)
  : AgentSystem * Status :=
  match r with
  | inl t => (s, Done (RejectedWith t))
  | inr criticResponse =>
      let s := withState s (setRecommendations criticResponse (state s)) in
      let s := transitionTo HOST s in
      let s := onAgentChange "Host Agent" s in
      let prompt :=
        hostPrompt (recommendations (state s)) (userProfile (state s))
                   (currentDemand (state s)) in
      match beginCall prompt (PROMPTS HOST) s with
      | (s, inl t) => (s, Done (RejectedWith t))
      | (s, inr _) => (s, Awaiting InHostStep)
      end
  end.

(** [runCriticAndHost] after its second [await]. *)
Definition runCriticAndHost_afterHost (r : Thrown + string) (s : AgentSystem)
  : AgentSystem * Status :=
  match r with
  | inl t => (s, Done (RejectedWith t))
  | inr hostResponse => (addAgentMessage "Host" hostResponse s, Done Fulfilled)
  end.

(** [runSpecialist] after its [await].  The promise of
    [this.runCriticAndHost()] is dropped, not awaited: its status is
    returned next to the instance. *)
Definition runSpecialist_resume (response : string) (s : AgentSystem)
  : AgentSystem * option Status :=
  if includes demandMarker response then
    let markerIndex := indexOf demandMarker response in
    let reply := trim (substring response 0 markerIndex) in
    let demandData :=
      trim (substringFrom response
              (markerIndex + Z.of_nat (String.length demandMarker))) in
    let s := withState s (setCurrentDemand demandData (state s)) in
    let s := addAgentMessage "Genre Specialist" reply s in
    let s := transitionTo CRITIC s in
    let (s, floating) := runCriticAndHost_begin s in
    (s, Some floating)
  else
    (addAgentMessage "Genre Specialist" response s, None).

Definition runHost_begin (userInput : string) (s : AgentSystem)
  : AgentSystem * (Thrown + unit) :=
  let context := buildContext 5 s in
  beginCall (hostChatPrompt userInput context (recommendations (state s)))
            (PROMPTS HOST) s.

Definition runHost_resume (response : string) (s : AgentSystem)
  : AgentSystem :=
  addAgentMessage "Host" response s.

(** The [catch] clause of [processUserMessage]. *)
Definition catchError (error : Thrown) (s : AgentSystem)
  : AgentSystem * Status :=
  let errorMsg :=
    match error with
    | ThrownError e => errMessage e
    | ThrownOther _ => "Unknown error"
    end in
  (addSystemMessage (errorNotice errorMsg) s, Done (RejectedWith error)).

Definition awaitOrCatch (f : Frame) (r : AgentSystem * (Thrown + unit))
  : AgentSystem * Status :=
  match r with
  | (s, inl t) => catchError t s
  | (s, inr _) => (s, Awaiting f)
  end.

(** [processUserMessage] up to its first suspension. *)
Definition processUserMessage (userText : string) (s : AgentSystem)
  : AgentSystem * Status :=
  if isBackwardRequest userText then
    (fst (goBack s), Done Fulfilled)
  else
    let s := onAgentChange (getAgentName (currentRole (state s))) s in
    match currentRole (state s) with
    | PROFILER => awaitOrCatch InRunProfiler (runProfiler_begin userText s)
    | SPECIALIST => awaitOrCatch InRunSpecialist (runSpecialist_begin userText s)
    | CRITIC => (s, Done Fulfilled)
    | HOST => awaitOrCatch InRunHost (runHost_begin userText s)
    end.

(** What running a suspended frame on its reply leaves behind: the
    instance, the status of the promise the frame belongs to, and the
    status of a promise started and dropped on the way. *)
Record Resumed := {
  after : AgentSystem;
  outcome : Status;
  floating : option Status
}.

Definition settle (r : AgentSystem * Status) : Resumed :=
  {| after := fst r; outcome := snd r; floating := None |}.

Definition resume (f : Frame) (o : FetchOutcome) (s : AgentSystem) : Resumed :=
  let r := callGemini_reply o in
  match f with
  | InRunProfiler =>
      match r with
      | inl t => settle (catchError t s)
      | inr response => settle (runProfiler_resume response s, Done Fulfilled)
      end
  | InRunSpecialist =>
      match r with
      | inl t => settle (catchError t s)
      | inr response =>
          let (s, fl) := runSpecialist_resume response s in
          {| after := s; outcome := Done Fulfilled; floating := fl |}
      end
  | InRunHost =>
      match r with
      | inl t => settle (catchError t s)
      | inr response => settle (runHost_resume response s, Done Fulfilled)
      end
  | InCriticStep => settle (runCriticAndHost_afterCritic r s)
  | InHostStep => settle (runCriticAndHost_afterHost r s)
  end.

(** One turn with nothing interleaved: [processUserMessage(userText)]
    and, when it is suspended on a call, the reply [o] to that call.
    [after] is the instance when the promise of [processUserMessage]
    settles. *)
Definition turn (userText : string) (o : FetchOutcome) (s : AgentSystem)
  : Resumed :=
  match processUserMessage userText s with
  | (s, Awaiting f) => resume f o s
  | r => settle r
  end.

End Orchestrator.

End Agents.

(** ** The instance in its environment

    The caller may call [setHistory] and [processUserMessage] at any time
    and the network answers the requests in flight in any order.  A world
    is the instance, the frames waiting for a reply (oldest first), and how
    the promises handed out so far have settled. *)

Module Runtime.
Import JsString Llm Agents.

Inductive Action :=
| CallSetHistory (h : list Message)
| CallProcessUserMessage (userText : string)
| Deliver (i : nat) (o : FetchOutcome).

Record World := {
  instance : AgentSystem;
  inFlight : list Frame;
  turnsSettled : list Settled;   (* promises of [processUserMessage] *)
  droppedSettled : list Settled  (* promises of [runCriticAndHost] *)
}.

Definition waitingOf (st : Status) : list Frame :=
  match st with
  | Awaiting f => [f]
  | Done _ => []
  end.

Definition settledOf (st : Status) : list Settled :=
  match st with
  | Done r => [r]
  | Awaiting _ => []
  end.

Definition ownedByTurn (f : Frame) : bool :=
  match f with
  | InRunProfiler | InRunSpecialist | InRunHost => true
  | InCriticStep | InHostStep => false
  end.

Fixpoint removeNth {A : Type} (i : nat) (xs : list A) : list A :=
  match i, xs with
  | _, [] => []
  | O, _ :: rest => rest
  | S i', x :: rest => x :: removeNth i' rest
  end.

Section Run.
Variable PROMPTS : AgentRole -> string.
Variable Date_now : nat -> N.
Variable Math_random : nat -> string.

Definition boot (key mdl : string) : World :=
  {| instance := construct key mdl; inFlight := [];
     turnsSettled := []; droppedSettled := [] |}.

Definition exec (w : World) (a : Action) : World :=
  match a with
  | CallSetHistory h =>
      {| instance := setHistory h (instance w); inFlight := inFlight w;
         turnsSettled := turnsSettled w; droppedSettled := droppedSettled w |}
  | CallProcessUserMessage userText =>
      let (s, st) :=
        processUserMessage PROMPTS Date_now Math_random userText (instance w) in
      {| instance := s;
         inFlight := (inFlight w ++ waitingOf st)%list;
         turnsSettled := (turnsSettled w ++ settledOf st)%list;
         droppedSettled := droppedSettled w |}
  | Deliver i o =>
      match nth_error (inFlight w) i with
      | None => w
      | Some f =>
          let r := resume PROMPTS Date_now Math_random f o (instance w) in
          let started :=
            match floating r with
            | Some st => st
            | None => Done Fulfilled
            end in
          let dropped :=
            match floating r with
            | Some st => settledOf st
            | None => []
            end in
          {| instance := after r;
             inFlight := (removeNth i (inFlight w) ++ waitingOf (outcome r)
                          ++ waitingOf started)%list;
             turnsSettled :=
               (turnsSettled w ++
                (if ownedByTurn f then settledOf (outcome r) else []))%list;
             droppedSettled :=
               (droppedSettled w ++
                (if ownedByTurn f then dropped else settledOf (outcome r)))%list |}
      end
  end.

Definition run (actions : list Action) (w : World) : World :=
  fold_left exec actions w.

End Run.

(** How many requests a trace holds. *)
Definition fetchCount (t : list Event) : nat :=
  List.length (filter (fun ev => match ev with Fetch _ => true | _ => false end) t).

(** The prompts of the requests of a trace, in order. *)
Fixpoint promptsSent (t : list Event) : list string :=
  match t with
  | [] => []
  | Fetch req :: rest =>
      (map partText (concat (map blockParts (contents (body req))))
       ++ promptsSent rest)%list
  | _ :: rest => promptsSent rest
  end.

End Runtime.

(** ** A sample environment for closed examples *)

Module Sample.
Import JsString Llm Agents Runtime.

Definition prompts (r : AgentRole) : string :=
  "You are the " ++ getAgentName r ++ " of the recommendation team.".

Definition clock (n : nat) : N := 1700000000000 + N.of_nat n.

Definition random (n : nat) : string := "k3j9x0q2p".

Definition key : string := "AIzaSample".
Definition mdl : string := "gemini-2.5-flash".

Definition fresh : AgentSystem := construct key mdl.

Definition welcome : Message :=
  {| id := "welcome"; role := agent; agentName := Some "Profiler";
     content := "hello"; timestamp := 1 |}.

Definition said (text : string) : Message :=
  {| id := "1700000000000"; role := user; agentName := None;
     content := text; timestamp := 1700000000000 |}.

(** What the page does when the user sends [text]: the message joins the
    list, the list is handed over with [setHistory], and the turn starts. *)
Definition userSends (text : string) (w : World) : World :=
  run prompts clock random
    [ CallSetHistory (history (state (instance w)) ++ [said text]);
      CallProcessUserMessage text ] w.

(** The oldest request in flight is answered. *)
Definition answered (o : FetchOutcome) (w : World) : World :=
  exec prompts clock random w (Deliver 0 o).

Definition profileResponse : string :=
  "好的！" ++ newline ++ "||PROFILE_READY|| 科幻, 悬疑, 烧脑".

Definition demandResponse : string := "明白 ||DEMAND_LOCKED|| 科幻片".

Definition opened : World :=
  exec prompts clock random (boot key mdl) (CallSetHistory [welcome]).

Definition atSpecialist : World :=
  answered (okReply profileResponse)
    (userSends "我喜欢盗梦空间、星际穿越、黑客帝国" opened).

Definition criticPending : World :=
  answered (okReply demandResponse) (userSends "想看科幻" atSpecialist).

Definition atHost : World :=
  answered (okReply "这两部影片很适合您。")
    (answered (okReply "[Inception; Interstellar]") criticPending).

Definition unavailable : FetchOutcome :=
  failReply 503 "Service Unavailable" "overloaded".

End Sample.

(** ** Vocabulary of the specification *)

Module Spec.
Import JsString Llm Agents Runtime.

(** The completion marker a stage looks for in the model's response. *)
Definition completionMarker (r : AgentRole) : option string :=
  match r with
  | PROFILER => Some profileMarker
  | SPECIALIST => Some demandMarker
  | CRITIC | HOST => None
  end.

Definition lacksMarker (r : AgentRole) (response : string) : Prop :=
  match completionMarker r with
  | Some m => includes m response = false
  | None => True
  end.

(** The stage stack is not empty and its top is the current stage. *)
Definition wellStacked (st : AgentState) : Prop :=
  exists below, stateHistory st = (below ++ [currentRole st])%list.

(** The part of the state the stack invariant reads. *)
Definition stages (s : AgentSystem) : AgentRole * list AgentRole :=
  (currentRole (state s), stateHistory (state s)).

(** The frame [processUserMessage] waits in at each stage that calls the
    generation client on user input. *)
Definition frameFor (r : AgentRole) : option Frame :=
  match r with
  | PROFILER => Some InRunProfiler
  | SPECIALIST => Some InRunSpecialist
  | HOST => Some InRunHost
  | CRITIC => None
  end.

(** The text of the prompt a request carries. *)
Definition promptOf (req : Request) : list string :=
  map partText (concat (map blockParts (contents (body req)))).

(** The system instruction a request carries. *)
Definition instructionOf (req : Request) : list string :=
  match systemInstructionField (body req) with
  | Some block => map partText (blockParts block)
  | None => []
  end.

(** [text] occurs in [prompt]. *)
Definition embeds (prompt text : string) : Prop := occurs text prompt.

(** The fields backward navigation resets on arrival at a stage. *)
Definition clearedOnReturn (destination : AgentRole) (st : AgentState)
  : AgentState :=
  match destination with
  | PROFILER =>
      setRecommendations EmptyString
        (setCurrentDemand EmptyString (setUserProfile EmptyString st))
  | SPECIALIST =>
      setRecommendations EmptyString (setCurrentDemand EmptyString st)
  | CRITIC | HOST => st
  end.

End Spec.

(** ** The page around the orchestrator *)

Module Page.
Import JsString Llm Agents.

(** The updater the [onMessageUpdate] callback of [App] hands to
    [setMessages]: the batch is appended without the messages whose [id] the
    list already holds; when nothing is left the list itself is returned. *)
Definition mergeMessages (currentHistory newMessages : list Message)
  : list Message :=
  let existingIds := map id currentHistory in
  let uniqueNewMessages :=
    filter (fun m => negb (existsb (String.eqb (id m)) existingIds))
           newMessages in
  match uniqueNewMessages with
  | [] => currentHistory
  | _ :: _ => (currentHistory ++ uniqueNewMessages)%list
  end.

(** What [handleSave] of the settings dialog ends in. *)
Inductive SaveOutcome :=
| ShowError (message : string)     (* [setError(...)], nothing saved *)
| Declined                         (* the warning was not confirmed *)
| Saved (key mdl : string).        (* [onSave(key, mdl)], then [onClose()] *)

(** [handleSave] on the two fields of the dialog.  [confirmed] is the
    user's answer to the warning shown for a key that does not start with
    "AIza"; it is only asked for in that case. *)
Definition handleSave (localKey localModel : string) (confirmed : bool)
  : SaveOutcome :=
  let trimmedKey := trim localKey in
  let trimmedModel := trim localModel in
  if trimmedKey =? EmptyString then ShowError "请输入 API Key"
  else if trimmedModel =? EmptyString then ShowError "请输入模型名称"
  else if negb (startsWith "AIza" trimmedKey) && negb confirmed then Declined
  else Saved trimmedKey trimmedModel.

End Page.

(** ** Vocabulary for the effects of a step *)

Module Laws.
Import JsString Llm Agents Runtime.

(** The messages handed to [onMessageUpdate] along a trace. *)
Definition published (t : list Event) : list Message :=
  flat_map (fun ev => match ev with MessageUpdate msgs => msgs | _ => [] end) t.

(** The requests handed to [fetch] along a trace. *)
Definition requestsOf (t : list Event) : list Request :=
  flat_map (fun ev => match ev with Fetch req => [req] | _ => [] end) t.

(** The agent names announced through [onAgentChange] along a trace. *)
Definition announced (t : list Event) : list string :=
  flat_map (fun ev => match ev with AgentChange label => [label] | _ => [] end) t.

(** [req] is a request [callGemini] builds for the instance [s]. *)
Definition sentBy (s : AgentSystem) (req : Request) : Prop :=
  credentialMissing (apiKey s) = false /\
  exists prompt instruction,
    callGemini_request (apiKey s) (model s) prompt (Some instruction) = inr req.

Definition agentAuthored (m : Message) : Prop :=
  role m = agent /\ agentName m <> None.

(** What a stretch of code between two suspensions does to the instance:
    [added] is what it appends to the trace and [started] the frames it
    leaves waiting. *)
Record Effects (s s' : AgentSystem) (added : list Event) (started : list Frame)
  : Prop := {
  eff_trace : trace s' = (trace s ++ added)%list;
  eff_key : apiKey s' = apiKey s;
  eff_model : model s' = model s;
  eff_history : history (state s') = (history (state s) ++ published added)%list;
  eff_authors : Forall agentAuthored (published added);
  eff_requests : List.length (requestsOf added) = List.length started;
  eff_sent : Forall (sentBy s) (requestsOf added)
}.

(** The frames a resumed frame leaves waiting. *)
Definition startedBy (r : Resumed) : list Frame :=
  (waitingOf (outcome r)
   ++ waitingOf (match floating r with Some st => st | None => Done Fulfilled end))%list.

(** The shape of every request of the client for credential [key] and
    model [mdl]. *)
Definition wellFormedRequest (key mdl : string) (req : Request) : Prop :=
  url req = endpoint mdl key /\
  method req = "POST" /\
  headers req = [ ("Content-Type", "application/json") ] /\
  generationConfig (body req)
  = {| temperature := "0.7"; maxOutputTokens := 2000 |} /\
  exists prompt,
    contents (body req)
    = [ {| blockRole := Some "user"; blockParts := [ {| partText := prompt |} ] |} ].

(** What [buildContext] reads of a message. *)
Definition contextView (m : Message) : MessageRole * string :=
  (role m, content m).

Section Counting.
Variable PROMPTS : AgentRole -> string.
Variable Date_now : nat -> N.
Variable Math_random : nat -> string.

(** The replies that found their frame along a run. *)
Fixpoint delivered (actions : list Action) (w : World) : nat :=
  match actions with
  | [] => 0
  | a :: rest =>
      (match a with
       | Deliver i _ =>
           match nth_error (inFlight w) i with Some _ => 1 | None => 0 end
       | _ => 0
       end)
      + delivered rest (exec PROMPTS Date_now Math_random w a)
  end.

(** The caller starts a turn only when no request is in flight. *)
Fixpoint serialized (actions : list Action) (w : World) : bool :=
  match actions with
  | [] => true
  | a :: rest =>
      (match a with
       | CallProcessUserMessage _ =>
           match inFlight w with [] => true | _ :: _ => false end
       | _ => true
       end)
      && serialized rest (exec PROMPTS Date_now Math_random w a)
  end.

(** [n] calls of [goBack] in a row. *)
Definition goBackTimes (n : nat) (s : AgentSystem) : AgentSystem :=
  Nat.iter n (fun x => fst (goBack Date_now Math_random x)) s.

End Counting.

End Laws.

(** ** More sample values *)

Module Cases.
Import JsString Llm Agents Runtime Sample.

(** The user goes back while the critic call is in flight. *)
Definition backedOut : World :=
  exec prompts clock random criticPending (CallProcessUserMessage "返回").

(** The critic call has failed: the instance rests in CRITIC. *)
Definition stranded : World := answered unavailable criticPending.

(** An instance constructed with a blank credential. *)
Definition unconfigured : AgentSystem := construct "  " mdl.

Definition fiveSaid : list Message :=
  [ said "a"; said "b"; said "c"; said "d"; said "e" ].

(** The same five lines under other ids, names and timestamps. *)
Definition fiveRestamped : list Message :=
  map (fun m => {| id := "x-" ++ id m; role := role m; content := content m;
                   agentName := Some "Someone"; timestamp := 7 |}) fiveSaid.

(** A success reply whose only candidate was blocked and has no content. *)
Definition blockedReply : FetchOutcome :=
  FetchFulfilled
    {| ok := true; status := 200; statusText := "OK";
       readText := inr EmptyString;
       readJson := inr {| candidates := Some [ {| candContent := None |} ] |} |}.

Definition firstRequest : Request :=
  {| url := endpoint mdl key;
     method := "POST";
     headers := [ ("Content-Type", "application/json") ];
     body := buildBody (profilerPrompt "hi" EmptyString)
                       (Some (prompts PROFILER)) |}.

End Cases.

(** ** Facts about the string primitives *)

Section JsStringFacts.
Import JsString.

Lemma startsWith_app (m post : string) : startsWith m (m ++ post) = true.
Proof.
  unfold startsWith. induction m as [|c m IH]; simpl.
  - destruct post; reflexivity.
  - destruct (ascii_dec c c) as [_|ne]; [exact IH | now destruct ne].
Qed.

Lemma length_append (a b : string) :
  String.length (a ++ b) = String.length a + String.length b.
Proof. induction a as [|c a IH]; simpl; [reflexivity | now rewrite IH]. Qed.

Lemma drop_app (a b : string) : drop (String.length a) (a ++ b) = b.
Proof. induction a as [|c a IH]; simpl; [now destruct b | exact IH]. Qed.

Lemma take_app (a b : string) : take (String.length a) (a ++ b) = a.
Proof. induction a as [|c a IH]; simpl; [reflexivity | now rewrite IH]. Qed.

Lemma take_all (s : string) : take (String.length s) s = s.
Proof. induction s as [|c s IH]; simpl; [reflexivity | now rewrite IH]. Qed.

Lemma append_assoc (a b c : string) : (a ++ b) ++ c = a ++ b ++ c.
Proof. induction a as [|x a IH]; simpl; [reflexivity | now rewrite IH]. Qed.

Lemma includes_here (m s : string) :
  startsWith m s = true -> includes m s = true.
Proof. intros H. destruct s; simpl; rewrite H; reflexivity. Qed.

Lemma indexOfFrom_here (m s : string) (i : nat) :
  startsWith m s = true -> indexOfFrom m s i = Some i.
Proof. intros H. destruct s; simpl; rewrite H; reflexivity. Qed.

Lemma includes_app (pre m post : string) : includes m (pre ++ m ++ post) = true.
Proof.
  induction pre as [|c pre IH]; simpl.
  - apply includes_here, startsWith_app.
  - rewrite IH. apply orb_true_r.
Qed.

Lemma startsWith_split (m s : string) :
  startsWith m s = true -> exists post, s = m ++ post.
Proof.
  unfold startsWith. revert s. induction m as [|c m IH]; intros s H.
  - exists s. reflexivity.
  - destruct s as [|d s]; simpl in H; [discriminate|].
    destruct (ascii_dec c d) as [->|]; [|discriminate].
    destruct (IH _ H) as [post ->]. exists post. reflexivity.
Qed.

Lemma includes_occurs (m s : string) :
  includes m s = true <-> occurs m s.
Proof.
  split.
  - induction s as [|c s IH]; simpl; intros H.
    + rewrite orb_false_r in H.
      destruct (startsWith_split _ _ H) as [post E].
      exists EmptyString, post. exact E.
    + apply orb_true_iff in H. destruct H as [H|H].
      * destruct (startsWith_split _ _ H) as [post E].
        exists EmptyString, post. exact E.
      * destruct (IH H) as (pre & post & ->).
        exists (String c pre), post. reflexivity.
  - intros (pre & post & ->). apply includes_app.
Qed.

Lemma indexOfFrom_first (m pre post : string) (i : nat) :
  (forall k, k < String.length pre ->
             startsWith m (drop k (pre ++ m ++ post)) = false) ->
  indexOfFrom m (pre ++ m ++ post) i = Some (i + String.length pre).
Proof.
  revert i. induction pre as [|c pre IH]; intros i H.
  - simpl. rewrite indexOfFrom_here by apply startsWith_app. f_equal. lia.
  - pose proof (H 0 ltac:(simpl; lia)) as H0. simpl in H0 |- *.
    rewrite H0, IH.
    + f_equal. lia.
    + intros k Hk. apply (H (S k)). simpl. lia.
Qed.

Lemma indexOf_first (m s pre post : string) :
  first_split m s pre post ->
  indexOf m s = Z.of_nat (String.length pre).
Proof.
  intros [-> H]. unfold indexOf. rewrite indexOfFrom_first by exact H.
  reflexivity.
Qed.

Lemma first_split_here (m s : string) :
  startsWith m s = true -> exists post, first_split m s EmptyString post.
Proof.
  intros E. destruct (startsWith_split _ _ E) as [post Hp].
  exists post. split; [exact Hp|]. simpl. intros k Hk. lia.
Qed.

Lemma indexOfFrom_split (m s : string) (i j : nat) :
  indexOfFrom m s i = Some j ->
  exists pre post, first_split m s pre post /\ j = i + String.length pre.
Proof.
  revert i. induction s as [|c s IH]; intros i; simpl.
  - destruct (startsWith m EmptyString) eqn:E; [|discriminate].
    intros [= <-]. destruct (first_split_here _ _ E) as [post Hp].
    exists EmptyString, post. split; [exact Hp | simpl; lia].
  - destruct (startsWith m (String c s)) eqn:E.
    + intros [= <-]. destruct (first_split_here _ _ E) as [post Hp].
      exists EmptyString, post. split; [exact Hp | simpl; lia].
    + intros H. destruct (IH _ H) as (pre & post & [-> Hf] & ->).
      exists (String c pre), post. split; [split|simpl; lia].
      * reflexivity.
      * intros [|k] Hk; simpl; [exact E|].
        apply Hf. simpl in Hk. lia.
Qed.

Lemma includes_indexOfFrom (m s : string) (i : nat) :
  includes m s = true -> exists j, indexOfFrom m s i = Some j.
Proof.
  revert i. induction s as [|c s IH]; intros i; simpl.
  - rewrite orb_false_r. intros ->. eauto.
  - destruct (startsWith m (String c s)); simpl; eauto.
Qed.

(** Every string containing [m] splits around its first occurrence. *)
Lemma includes_first_split (m s : string) :
  includes m s = true -> exists pre post, first_split m s pre post.
Proof.
  intros H. destruct (includes_indexOfFrom m s 0 H) as [j Hj].
  destruct (indexOfFrom_split _ _ _ _ Hj) as (pre & post & Hs & _).
  eauto.
Qed.

Lemma first_split_unique (m s pre post pre' post' : string) :
  first_split m s pre post -> first_split m s pre' post' ->
  pre = pre' /\ post = post'.
Proof.
  intros H H'.
  pose proof (indexOf_first _ _ _ _ H) as E.
  pose proof (indexOf_first _ _ _ _ H') as E'.
  rewrite E in E'. apply Nat2Z.inj in E'.
  destruct H as [Hs _], H' as [Hs' _].
  assert (pre = pre') as <-.
  { rewrite <- (take_app pre (m ++ post)), <- Hs, E', Hs'. apply take_app. }
  split; [reflexivity|].
  rewrite <- (drop_app m post), <- (drop_app pre (m ++ post)), <- Hs.
  rewrite Hs' at 1. rewrite !drop_app. reflexivity.
Qed.

Lemma substring_prefix (pre rest : string) :
  substring (pre ++ rest) 0 (Z.of_nat (String.length pre)) = pre.
Proof.
  unfold substring, clamp. rewrite length_append.
  replace (Z.max 0 (Z.min 0 _)) with 0%Z by lia.
  replace (Z.max 0 (Z.min (Z.of_nat (String.length pre)) _))
    with (Z.of_nat (String.length pre)) by lia.
  replace (Z.min 0 _) with 0%Z by lia.
  replace (Z.max 0 (Z.of_nat (String.length pre)))
    with (Z.of_nat (String.length pre)) by lia.
  rewrite Z.sub_0_r, Nat2Z.id. simpl. apply take_app.
Qed.

Lemma substringFrom_suffix (pre post : string) :
  substringFrom (pre ++ post) (Z.of_nat (String.length pre)) = post.
Proof.
  unfold substringFrom, substring, clamp. rewrite length_append.
  set (a := String.length pre). set (b := String.length post).
  replace (Z.max 0 (Z.min (Z.of_nat a) (Z.of_nat (a + b))))
    with (Z.of_nat a) by lia.
  replace (Z.max 0 (Z.min (Z.of_nat (a + b)) (Z.of_nat (a + b))))
    with (Z.of_nat (a + b)) by lia.
  replace (Z.min (Z.of_nat a) (Z.of_nat (a + b))) with (Z.of_nat a) by lia.
  replace (Z.max (Z.of_nat a) (Z.of_nat (a + b)) - Z.of_nat a)%Z
    with (Z.of_nat b) by lia.
  rewrite !Nat2Z.id. subst a b. rewrite drop_app. apply take_all.
Qed.

Lemma append_same_length (a b a' b' : string) :
  a ++ b = a' ++ b' -> String.length a = String.length a' -> a = a' /\ b = b'.
Proof.
  revert a'. induction a as [|c a IH]; intros [|c' a'] H Hl; cbn in *;
    try discriminate.
  - split; [reflexivity | exact H].
  - injection H as -> H. injection Hl as Hl.
    destruct (IH _ H Hl) as [-> ->]. split; reflexivity.
Qed.

(** A decomposition is the first one as soon as [indexOf] lands on it. *)
Lemma first_split_by_index (m s pre post : string) :
  s = pre ++ m ++ post ->
  indexOf m s = Z.of_nat (String.length pre) ->
  first_split m s pre post.
Proof.
  intros Hs Hi. unfold indexOf in Hi.
  destruct (indexOfFrom m s 0) as [j|] eqn:E; [|lia].
  apply Nat2Z.inj in Hi. subst j.
  destruct (indexOfFrom_split _ _ _ _ E) as (pre' & post' & Hf & Hl).
  cbn in Hl. destruct Hf as [Hs' Hf].
  assert (pre = pre') as <-.
  { rewrite Hs' in Hs. symmetry in Hs.
    apply (append_same_length _ _ _ _ Hs). exact Hl. }
  split; assumption.
Qed.

(** What the marker-splitting idiom of the orchestrator computes:
    [substring(0, indexOf(m))] and [substring(indexOf(m) + m.length)]. *)
Lemma split_at_marker (m s pre post : string) :
  first_split m s pre post ->
  substring s 0 (indexOf m s) = pre /\
  substringFrom s (indexOf m s + Z.of_nat (String.length m)) = post.
Proof.
  intros H. rewrite (indexOf_first _ _ _ _ H). destruct H as [-> _].
  split; [apply substring_prefix|].
  rewrite <- Nat2Z.inj_add, <- length_append, <- append_assoc.
  apply substringFrom_suffix.
Qed.

End JsStringFacts.

(** ** White space *)

Section Strip.
Import JsString.

Variable w1 : ascii -> bool.
Variable w2 : ascii -> ascii -> bool.
Variable w3 : ascii -> ascii -> ascii -> bool.

Hypothesis w2_not_w1 : forall a b, w2 a b = true -> w1 a = false.
Hypothesis w3_not_w1 : forall a b c, w3 a b c = true -> w1 a = false.
Hypothesis w3_not_w2 : forall a b c, w3 a b c = true -> w2 a b = false.

Lemma strip_blank (s : string) : BlankBy w1 w2 w3 s -> strip w1 w2 w3 s = EmptyString.
Proof.
  induction 1 as [|c s Hc _ IH|c1 c2 s Hc _ IH|c1 c2 c3 s Hc _ IH]; cbn.
  - reflexivity.
  - rewrite Hc. exact IH.
  - rewrite (w2_not_w1 _ _ Hc), Hc. exact IH.
  - rewrite (w3_not_w1 _ _ _ Hc), (w3_not_w2 _ _ _ Hc), Hc. exact IH.
Qed.

End Strip.

Section StripSplit.
Import JsString.

Variable w1 : ascii -> bool.
Variable w2 : ascii -> ascii -> bool.
Variable w3 : ascii -> ascii -> ascii -> bool.

Lemma BlankBy_app (a b : string) :
  BlankBy w1 w2 w3 a -> BlankBy w1 w2 w3 b -> BlankBy w1 w2 w3 (a ++ b).
Proof.
  induction 1; intros Hb; cbn;
    [exact Hb | apply blank_1 | apply blank_2 | apply blank_3]; auto.
Qed.

(** [strip] removes a blank prefix. *)
Lemma strip_split_bounded (n : nat) (s : string) :
  String.length s <= n ->
  exists b, s = b ++ strip w1 w2 w3 s /\ BlankBy w1 w2 w3 b.
Proof.
  revert s. induction n as [|n IH]; intros s Hn.
  - destruct s; [|cbn in Hn; lia]. exists EmptyString. split; [reflexivity|constructor].
  - destruct s as [|c1 s1]; [exists EmptyString; split; [reflexivity|constructor]|].
    cbn in Hn. cbn [strip].
    destruct (w1 c1) eqn:H1.
    { destruct (IH s1 ltac:(lia)) as (b & Hb & Bb).
      exists (String c1 b). split; [cbn; rewrite <- Hb; reflexivity|].
      constructor; assumption. }
    destruct s1 as [|c2 s2]; [exists EmptyString; split; [reflexivity|constructor]|].
    cbn in Hn.
    destruct (w2 c1 c2) eqn:H2.
    { destruct (IH s2 ltac:(lia)) as (b & Hb & Bb).
      exists (String c1 (String c2 b)). split; [cbn; rewrite <- Hb; reflexivity|].
      constructor; assumption. }
    destruct s2 as [|c3 s3]; [exists EmptyString; split; [reflexivity|constructor]|].
    cbn in Hn.
    destruct (w3 c1 c2 c3) eqn:H3.
    { destruct (IH s3 ltac:(lia)) as (b & Hb & Bb).
      exists (String c1 (String c2 (String c3 b))).
      split; [cbn; rewrite <- Hb; reflexivity|].
      constructor; assumption. }
    exists EmptyString. split; [reflexivity|constructor].
Qed.

Lemma strip_split (s : string) :
  exists b, s = b ++ strip w1 w2 w3 s /\ BlankBy w1 w2 w3 b.
Proof. apply (strip_split_bounded (String.length s)). lia. Qed.

End StripSplit.

Section Trim.
Import JsString.

Lemma append_nil_r (s : string) : s ++ EmptyString = s.
Proof. induction s as [|c s IH]; cbn; [reflexivity | now rewrite IH]. Qed.

Lemma rev_onto_app (s acc : string) : rev_onto s acc = rev s ++ acc.
Proof.
  unfold rev. revert acc. induction s as [|c s IH]; intros acc; cbn; [reflexivity|].
  rewrite IH, (IH (String c EmptyString)), append_assoc. reflexivity.
Qed.

Lemma rev_cons (c : ascii) (s : string) : rev (String c s) = rev s ++ String c EmptyString.
Proof. unfold rev at 1. cbn. apply rev_onto_app. Qed.

Lemma rev_app (a b : string) : rev (a ++ b) = rev b ++ rev a.
Proof.
  induction a as [|c a IH]; cbn [append].
  - change (rev EmptyString) with EmptyString. now rewrite append_nil_r.
  - rewrite !rev_cons, IH, append_assoc. reflexivity.
Qed.

Lemma rev_involutive (s : string) : rev (rev s) = s.
Proof.
  induction s as [|c s IH]; [reflexivity|].
  rewrite rev_cons, rev_app, IH. reflexivity.
Qed.

Lemma BlankBy_rev w1 w2 w3 (s : string) :
  BlankBy w1 w2 w3 s -> BlankBy w1 (flip2 w2) (flip3 w3) (rev s).
Proof.
  induction 1 as [|c s Hc _ IH|c1 c2 s Hc _ IH|c1 c2 c3 s Hc _ IH].
  - constructor.
  - rewrite rev_cons. apply BlankBy_app; [exact IH|]. constructor; [exact Hc|constructor].
  - rewrite !rev_cons, append_assoc. apply BlankBy_app; [exact IH|].
    cbn. apply blank_2; [exact Hc|constructor].
  - rewrite !rev_cons, !append_assoc. apply BlankBy_app; [exact IH|].
    cbn. apply blank_3; [exact Hc|constructor].
Qed.

Lemma ws2_not_ws1 a b : ws2 a b = true -> ws1 a = false.
Proof.
  unfold ws1, ws2. rewrite andb_true_iff, !Nat.eqb_eq. intros [-> _]. reflexivity.
Qed.

Ltac bools H :=
  repeat rewrite ?orb_true_iff, ?andb_true_iff, ?Nat.eqb_eq, ?Nat.leb_le in H.

Lemma ws3_lead a b c :
  ws3 a b c = true ->
  (nat_of_ascii a = 225 \/ nat_of_ascii a = 226 \/ nat_of_ascii a = 227 \/ nat_of_ascii a = 239) /\
  128 <= nat_of_ascii c <= 191 /\ nat_of_ascii c <> 160.
Proof. unfold ws3. intros H. bools H. lia. Qed.

Lemma ws1_false_from (n : nat) a : nat_of_ascii a = n -> 14 <= n -> n <> 32 -> ws1 a = false.
Proof.
  intros E H1 H2. unfold ws1. rewrite E.
  apply not_true_is_false. intros H. bools H. lia.
Qed.

Lemma ws3_not_ws1 a b c : ws3 a b c = true -> ws1 a = false.
Proof.
  intros H. destruct (ws3_lead _ _ _ H) as (Ha & _).
  apply (ws1_false_from (nat_of_ascii a)); [reflexivity|lia|lia].
Qed.

Lemma ws3_not_ws2 a b c : ws3 a b c = true -> ws2 a b = false.
Proof.
  intros H. destruct (ws3_lead _ _ _ H) as (Ha & _).
  unfold ws2. apply not_true_is_false. intros H2. bools H2. lia.
Qed.

Lemma rws2_not_ws1 a b : flip2 ws2 a b = true -> ws1 a = false.
Proof.
  unfold flip2, ws2. intros H. bools H.
  apply (ws1_false_from 160); [apply H|lia|lia].
Qed.

Lemma rws3_not_ws1 a b c : flip3 ws3 a b c = true -> ws1 a = false.
Proof.
  unfold flip3. intros H. destruct (ws3_lead _ _ _ H) as (_ & Hc & _).
  apply (ws1_false_from (nat_of_ascii a)); [reflexivity|lia|lia].
Qed.

Lemma rws3_not_rws2 a b c : flip3 ws3 a b c = true -> flip2 ws2 a b = false.
Proof.
  unfold flip3, flip2. intros H. destruct (ws3_lead _ _ _ H) as (_ & _ & Hc).
  unfold ws2. apply not_true_is_false. intros H2. bools H2. lia.
Qed.

Lemma BlankBy_unrev (s : string) :
  BlankBy ws1 (flip2 ws2) (flip3 ws3) s -> Blank (rev s).
Proof. intros H. apply BlankBy_rev in H. exact H. Qed.

(** [trim] leaves nothing exactly of the strings of white space. *)
Lemma trim_empty_iff_blank (s : string) : trim s = EmptyString <-> Blank s.
Proof.
  unfold trim, trimStart, trimEnd. split.
  - intros H.
    destruct (strip_split ws1 (flip2 ws2) (flip3 ws3) (rev s)) as (b & Hb & Bb).
    destruct (strip_split ws1 ws2 ws3
                (rev (strip ws1 (flip2 ws2) (flip3 ws3) (rev s))))
      as (b2 & Hb2 & Bb2).
    rewrite H, append_nil_r in Hb2.
    rewrite <- (rev_involutive s), Hb, rev_app, Hb2.
    apply BlankBy_app; [exact Bb2|]. apply BlankBy_unrev. exact Bb.
  - intros H. apply (BlankBy_rev _ _ _ _) in H.
    rewrite (strip_blank ws1 (flip2 ws2) (flip3 ws3) rws2_not_ws1 rws3_not_ws1
               rws3_not_rws2 _ H).
    reflexivity.
Qed.

End Trim.

(** ** The stage stack *)

Section StageStack.
Import JsString Llm Agents Runtime Spec.

Variable PROMPTS : AgentRole -> string.
Variable Date_now : nat -> N.
Variable Math_random : nat -> string.

Local Abbreviation processUserMessage := (processUserMessage PROMPTS Date_now Math_random).
Local Abbreviation resume := (resume PROMPTS Date_now Math_random).
Local Abbreviation addAgentMessage := (addAgentMessage Date_now Math_random).
Local Abbreviation goBack := (goBack Date_now Math_random).
Local Abbreviation run := (run PROMPTS Date_now Math_random).
Local Abbreviation exec := (exec PROMPTS Date_now Math_random).

Lemma wellStacked_stages (s s' : AgentSystem) :
  stages s' = stages s -> wellStacked (state s) -> wellStacked (state s').
Proof.
  unfold stages, wellStacked. intros [= Hr Hs] [below H].
  exists below. rewrite Hr, Hs. exact H.
Qed.

Lemma stages_addAgentMessage (name text : string) (s : AgentSystem) :
  stages (addAgentMessage name text s) = stages s.
Proof. reflexivity. Qed.

Lemma stages_emit (ev : Event) (s : AgentSystem) : stages (emit ev s) = stages s.
Proof. reflexivity. Qed.

Lemma stages_beginCall (prompt instruction : string) (s : AgentSystem) :
  stages (fst (beginCall prompt instruction s)) = stages s.
Proof.
  unfold beginCall.
  destruct (callGemini_request _ _ _ _); reflexivity.
Qed.

Lemma wellStacked_transitionTo (r : AgentRole) (s : AgentSystem) :
  wellStacked (state (transitionTo r s)).
Proof. exists (stateHistory (state s)). reflexivity. Qed.

Lemma wellStacked_catchError (t : Thrown) (s : AgentSystem) :
  wellStacked (state s) ->
  wellStacked (state (fst (catchError Date_now Math_random t s))).
Proof. apply wellStacked_stages. reflexivity. Qed.

Lemma wellStacked_goBack (s : AgentSystem) :
  wellStacked (state s) -> wellStacked (state (fst (goBack s))).
Proof.
  intros [below H]. unfold Agents.goBack.
  destruct (Nat.leb_spec (List.length (stateHistory (state s))) 1) as [Hle|Hgt].
  - exists below. exact H.
  - rewrite H in *. rewrite removelast_last.
    destruct below as [|prev front _] using rev_ind.
    + simpl in Hgt. lia.
    + rewrite last_last. cbn [fst].
      destruct prev; exists front; reflexivity.
Qed.

Lemma wellStacked_processUserMessage (text : string) (s : AgentSystem) :
  wellStacked (state s) ->
  wellStacked (state (fst (processUserMessage text s))).
Proof.
  intros H. unfold Agents.processUserMessage.
  destruct (isBackwardRequest text).
  - apply wellStacked_goBack, H.
  - cbn [onAgentChange emit state].
    destruct (currentRole (state s)) eqn:Hrole; cbn [fst];
      unfold runProfiler_begin, runSpecialist_begin, runHost_begin, beginCall;
      try (destruct (callGemini_request _ _ _ _); cbn [awaitOrCatch fst]);
      revert H; apply wellStacked_stages; unfold stages; cbn; rewrite ?Hrole;
      reflexivity.
Qed.

Lemma wellStacked_resume (f : Frame) (o : FetchOutcome) (s : AgentSystem) :
  wellStacked (state s) -> wellStacked (state (after (resume f o s))).
Proof.
  intros H. unfold Agents.resume.
  destruct f; destruct (callGemini_reply o) as [t|response]; cbn [settle after fst];
    try (apply wellStacked_catchError, H); try exact H.
  - unfold runProfiler_resume.
    destruct (includes profileMarker response).
    + apply wellStacked_transitionTo.
    + exact H.
  - unfold runSpecialist_resume.
    destruct (includes demandMarker response); cbn [after]; [|exact H].
    unfold runCriticAndHost_begin, beginCall.
    destruct (callGemini_request _ _ _ _); cbn [after];
      exists (stateHistory (state s)); reflexivity.
  - unfold runCriticAndHost_afterCritic, beginCall.
    destruct (callGemini_request _ _ _ _); cbn [fst];
      exists (stateHistory (state s)); reflexivity.
Qed.

Lemma wellStacked_exec (w : World) (a : Action) :
  wellStacked (state (instance w)) -> wellStacked (state (instance (exec w a))).
Proof.
  intros H. destruct a as [h|text|i o]; cbn [Runtime.exec].
  - exact H.
  - pose proof (wellStacked_processUserMessage text _ H) as H'.
    destruct (processUserMessage text (instance w)). exact H'.
  - destruct (nth_error (inFlight w) i); [|exact H].
    apply wellStacked_resume, H.
Qed.

Lemma wellStacked_run (actions : list Action) (w : World) :
  wellStacked (state (instance w)) ->
  wellStacked (state (instance (run actions w))).
Proof.
  revert w. induction actions as [|a actions IH]; intros w H; [exact H|].
  apply IH, wellStacked_exec, H.
Qed.

Lemma wellStacked_top (st : AgentState) :
  wellStacked st ->
  1 <= List.length (stateHistory st) /\
  nth_error (stateHistory st) (List.length (stateHistory st) - 1)
  = Some (currentRole st).
Proof.
  intros [below H]. rewrite H, List.length_app. cbn [List.length]. split; [lia|].
  rewrite nth_error_app2 by lia.
  replace (_ - _) with 0 by lia. reflexivity.
Qed.

(** C7. From construction on, whatever the caller calls ([setHistory],
    [processUserMessage], forward or backward) and in whatever order the
    replies arrive, the stage stack holds at least one entry and its top
    entry is [currentRole]. *)
Theorem stack_top_is_current_role (key mdl : string) (actions : list Action) :
  let st := state (instance (run actions (boot key mdl))) in
  1 <= List.length (stateHistory st) /\
  nth_error (stateHistory st) (List.length (stateHistory st) - 1)
  = Some (currentRole st).
Proof.
  apply wellStacked_top, wellStacked_run. exists []. reflexivity.
Qed.

End StageStack.

(** ** Turns that make no generation call *)

Section QuietTurns.
Import JsString Llm Agents Runtime Spec.

Variable PROMPTS : AgentRole -> string.
Variable Date_now : nat -> N.
Variable Math_random : nat -> string.

Local Abbreviation processUserMessage := (processUserMessage PROMPTS Date_now Math_random).
Local Abbreviation newAgentMessage := (newAgentMessage Date_now Math_random).
Local Abbreviation goBack := (goBack Date_now Math_random).

(** C6. A backward request on a stack of one entry is refused: the turn
    settles at once, stage, stack, profile, demand and recommendations are
    as before, and the only thing the instance does is to append and
    publish the notice that this is the first step; no request goes out. *)
Theorem backward_refused_on_single_entry (s : AgentSystem) (userText : string) :
  isBackwardRequest userText = true ->
  List.length (stateHistory (state s)) = 1 ->
  let notice := newAgentMessage (built s) "System" firstStepNotice in
  let r := processUserMessage userText s in
  snd r = Done Fulfilled /\
  currentRole (state (fst r)) = currentRole (state s) /\
  stateHistory (state (fst r)) = stateHistory (state s) /\
  userProfile (state (fst r)) = userProfile (state s) /\
  currentDemand (state (fst r)) = currentDemand (state s) /\
  recommendations (state (fst r)) = recommendations (state s) /\
  history (state (fst r)) = (history (state s) ++ [notice])%list /\
  trace (fst r) = (trace s ++ [MessageUpdate [notice]])%list.
Proof.
  intros Hback Hlen. unfold Agents.processUserMessage, Agents.goBack.
  rewrite Hback, Hlen. cbn. repeat split; reflexivity.
Qed.

(** C10. In stage CRITIC a text that is no backward request only fires the
    agent-name notification: the promise is fulfilled, every field of the
    state is as before, and the trace gains that one notification (no
    request, no message). *)
Theorem critic_stage_ignores_input (s : AgentSystem) (userText : string) :
  isBackwardRequest userText = false ->
  currentRole (state s) = CRITIC ->
  let r := processUserMessage userText s in
  snd r = Done Fulfilled /\
  state (fst r) = state s /\
  trace (fst r) = (trace s ++ [AgentChange "Critic"])%list.
Proof.
  intros Hback Hrole. unfold Agents.processUserMessage.
  rewrite Hback. cbn [onAgentChange emit state]. rewrite Hrole.
  cbn. repeat split; reflexivity.
Qed.

End QuietTurns.

(** ** Turns that call the generation client *)

Section CallingTurns.
Import JsString Llm Agents Runtime Spec.

Variable PROMPTS : AgentRole -> string.
Variable Date_now : nat -> N.
Variable Math_random : nat -> string.

Local Abbreviation processUserMessage := (processUserMessage PROMPTS Date_now Math_random).
Local Abbreviation newAgentMessage := (newAgentMessage Date_now Math_random).
Local Abbreviation addAgentMessage := (addAgentMessage Date_now Math_random).
Local Abbreviation resume := (resume PROMPTS Date_now Math_random).
Local Abbreviation turn := (turn PROMPTS Date_now Math_random).
Local Abbreviation run := (run PROMPTS Date_now Math_random).
Local Abbreviation exec := (exec PROMPTS Date_now Math_random).

Lemma callGemini_request_sends (key mdl prompt : string) (instruction : option string) :
  credentialMissing key = false ->
  callGemini_request key mdl prompt instruction
  = inr {| url := endpoint mdl key;
           method := "POST";
           headers := [ ("Content-Type", "application/json") ];
           body := buildBody prompt instruction |}.
Proof. intros H. unfold callGemini_request. rewrite H. reflexivity. Qed.

Lemma callGemini_request_refuses (key mdl prompt : string) (instruction : option string) :
  credentialMissing key = true ->
  callGemini_request key mdl prompt instruction
  = inl (ThrownError configurationError).
Proof. intros H. unfold callGemini_request. rewrite H. reflexivity. Qed.

(** With a usable credential, [processUserMessage] at a calling stage
    notifies the agent name, sends one request and waits. *)
Lemma processUserMessage_suspends (s : AgentSystem) (userText : string) (f : Frame) :
  isBackwardRequest userText = false ->
  credentialMissing (apiKey s) = false ->
  frameFor (currentRole (state s)) = Some f ->
  exists req,
    processUserMessage userText s
    = (emit (Fetch req)
         (emit (AgentChange (getAgentName (currentRole (state s)))) s),
       Awaiting f).
Proof.
  intros Hback Hkey Hf. unfold Agents.processUserMessage. rewrite Hback.
  cbn [onAgentChange emit state].
  destruct (currentRole (state s)); cbn in Hf; try discriminate;
    injection Hf as <-;
    unfold runProfiler_begin, runSpecialist_begin, runHost_begin, beginCall;
    cbn [emit apiKey model];
    rewrite callGemini_request_sends by exact Hkey;
    eexists; reflexivity.
Qed.

(** With a missing credential the same call is caught at once. *)
Lemma processUserMessage_unconfigured (s : AgentSystem) (userText : string) (f : Frame) :
  isBackwardRequest userText = false ->
  credentialMissing (apiKey s) = true ->
  frameFor (currentRole (state s)) = Some f ->
  processUserMessage userText s
  = catchError Date_now Math_random (ThrownError configurationError)
      (emit (AgentChange (getAgentName (currentRole (state s)))) s).
Proof.
  intros Hback Hkey Hf. unfold Agents.processUserMessage. rewrite Hback.
  cbn [onAgentChange emit state].
  destruct (currentRole (state s)); cbn in Hf; try discriminate;
    unfold runProfiler_begin, runSpecialist_begin, runHost_begin, beginCall;
    cbn [emit apiKey model];
    rewrite callGemini_request_refuses by exact Hkey;
    reflexivity.
Qed.

Lemma frameFor_calling (r : AgentRole) :
  r <> CRITIC -> exists f, frameFor r = Some f.
Proof. destruct r; intros H; try (eexists; reflexivity). now destruct H. Qed.

(** C4. At PROFILER, SPECIALIST and HOST, when the model's response lacks
    the stage's completion marker (HOST has none), the turn is fulfilled
    with the stage and the stack as they were and the whole response,
    untouched, appended as the stage's agent reply. *)
Theorem response_without_marker_is_the_reply
        (s : AgentSystem) (userText response : string) (o : FetchOutcome) :
  isBackwardRequest userText = false ->
  credentialMissing (apiKey s) = false ->
  currentRole (state s) <> CRITIC ->
  callGemini_reply o = inr response ->
  lacksMarker (currentRole (state s)) response ->
  let r := turn userText o s in
  let reply :=
    newAgentMessage (built s) (getAgentName (currentRole (state s))) response in
  outcome r = Done Fulfilled /\
  floating r = None /\
  currentRole (state (after r)) = currentRole (state s) /\
  stateHistory (state (after r)) = stateHistory (state s) /\
  userProfile (state (after r)) = userProfile (state s) /\
  currentDemand (state (after r)) = currentDemand (state s) /\
  recommendations (state (after r)) = recommendations (state s) /\
  history (state (after r)) = (history (state s) ++ [reply])%list /\
  content reply = response /\ role reply = agent.
Proof.
  intros Hback Hkey Hrole Hreply Hlack.
  destruct (frameFor_calling _ Hrole) as [f Hf].
  destruct (processUserMessage_suspends s userText f Hback Hkey Hf) as [req Hp].
  unfold Agents.turn. rewrite Hp. clear Hp.
  unfold Agents.resume. rewrite Hreply.
  unfold lacksMarker in Hlack.
  destruct (currentRole (state s)) eqn:E; cbn in Hf, Hlack; try discriminate;
    injection Hf as <-.
  - unfold runProfiler_resume. rewrite Hlack. cbn. rewrite E.
    repeat split; reflexivity.
  - unfold runSpecialist_resume. rewrite Hlack. cbn. rewrite E.
    repeat split; reflexivity.
  - cbn. rewrite E. repeat split; reflexivity.
Qed.

Lemma first_split_includes (m response pre post : string) :
  first_split m response pre post -> includes m response = true.
Proof. intros [-> _]. apply includes_app. Qed.

(** [runProfiler] after a response with the marker. *)
Lemma runProfiler_resume_marker (s : AgentSystem) (response pre post : string) :
  first_split profileMarker response pre post ->
  runProfiler_resume Date_now Math_random response s
  = transitionTo SPECIALIST
      (addAgentMessage "Profiler" (trim pre)
         (withState s (setUserProfile (trim post) (state s)))).
Proof.
  intros H. unfold runProfiler_resume.
  rewrite (first_split_includes _ _ _ _ H).
  destruct (split_at_marker _ _ _ _ H) as [-> ->]. reflexivity.
Qed.

(** [runSpecialist] after a response with the marker. *)
Lemma runSpecialist_resume_marker (s : AgentSystem) (response pre post : string) :
  first_split demandMarker response pre post ->
  runSpecialist_resume PROMPTS Date_now Math_random response s
  = (let (s', fl) :=
       runCriticAndHost_begin PROMPTS
         (transitionTo CRITIC
            (addAgentMessage "Genre Specialist" (trim pre)
               (withState s (setCurrentDemand (trim post) (state s))))) in
     (s', Some fl)).
Proof.
  intros H. unfold runSpecialist_resume.
  rewrite (first_split_includes _ _ _ _ H).
  destruct (split_at_marker _ _ _ _ H) as [-> ->]. reflexivity.
Qed.

(** One turn of the world when nothing else is in flight. *)
Lemma run_turn (w : World) (userText : string) (o : FetchOutcome) (f : Frame) :
  inFlight w = [] ->
  isBackwardRequest userText = false ->
  credentialMissing (apiKey (instance w)) = false ->
  frameFor (currentRole (state (instance w))) = Some f ->
  exists req,
    let s1 := emit (Fetch req)
                (emit (AgentChange (getAgentName (currentRole (state (instance w)))))
                   (instance w)) in
    let r := resume f o s1 in
    instance (run [CallProcessUserMessage userText; Deliver 0 o] w) = after r /\
    inFlight (run [CallProcessUserMessage userText; Deliver 0 o] w)
    = (waitingOf (outcome r)
       ++ waitingOf (match floating r with Some st => st | None => Done Fulfilled end))%list.
Proof.
  intros Hidle Hback Hkey Hf.
  destruct (processUserMessage_suspends _ userText f Hback Hkey Hf) as [req Hp].
  exists req. cbn [Runtime.run fold_left Runtime.exec].
  rewrite Hp, Hidle. cbn. split; reflexivity.
Qed.

(** C1 (amended). When the response of PROFILER or SPECIALIST holds the
    stage's marker, the trimmed text after its first occurrence becomes the
    stored payload ([userProfile], [currentDemand]) and the trimmed text
    before it is appended as the stage's agent reply.  PROFILER then moves
    to SPECIALIST.  SPECIALIST moves to CRITIC with the critic request in
    flight; HOST is pushed on top of CRITIC when that call succeeds, and
    the stage stays CRITIC when it fails. *)
Theorem marker_splits_response_and_advances
        (w : World) (userText response m pre post : string) (o : FetchOutcome) :
  inFlight w = [] ->
  isBackwardRequest userText = false ->
  credentialMissing (apiKey (instance w)) = false ->
  completionMarker (currentRole (state (instance w))) = Some m ->
  callGemini_reply o = inr response ->
  first_split m response pre post ->
  let s := instance w in
  let w1 := run [CallProcessUserMessage userText; Deliver 0 o] w in
  let s1 := instance w1 in
  let reply :=
    newAgentMessage (built s) (getAgentName (currentRole (state s))) (trim pre) in
  history (state s1) = (history (state s) ++ [reply])%list /\
  content reply = trim pre /\
  match currentRole (state s) with
  | PROFILER =>
      userProfile (state s1) = trim post /\
      currentRole (state s1) = SPECIALIST /\
      stateHistory (state s1) = (stateHistory (state s) ++ [SPECIALIST])%list /\
      inFlight w1 = []
  | _ =>
      currentDemand (state s1) = trim post /\
      currentRole (state s1) = CRITIC /\
      stateHistory (state s1) = (stateHistory (state s) ++ [CRITIC])%list /\
      inFlight w1 = [InCriticStep] /\
      forall o2 : FetchOutcome,
        let s2 := instance (exec w1 (Deliver 0 o2)) in
        match callGemini_reply o2 with
        | inr criticResponse =>
            recommendations (state s2) = criticResponse /\
            currentRole (state s2) = HOST /\
            stateHistory (state s2)
            = (stateHistory (state s) ++ [CRITIC; HOST])%list
        | inl _ =>
            currentRole (state s2) = CRITIC /\
            stateHistory (state s2) = (stateHistory (state s) ++ [CRITIC])%list
        end
  end.
Proof.
  intros Hidle Hback Hkey Hm Hreply Hsplit.
  destruct (currentRole (state (instance w))) eqn:E; cbn in Hm; try discriminate;
    injection Hm as <-.
  - destruct (run_turn w userText o InRunProfiler Hidle Hback Hkey) as [req [Hi Hf]];
      [rewrite E; reflexivity|].
    cbv zeta in *. rewrite E in *. rewrite Hi, Hf. clear Hi Hf.
    unfold Agents.resume. rewrite Hreply.
    rewrite (runProfiler_resume_marker _ _ _ _ Hsplit).
    cbn. repeat split; reflexivity.
  - destruct (run_turn w userText o InRunSpecialist Hidle Hback Hkey) as [req [Hi Hf]];
      [rewrite E; reflexivity|].
    cbv zeta in *. rewrite E in *.
    assert (Hw1 : inFlight (run [CallProcessUserMessage userText; Deliver 0 o] w)
                  = [InCriticStep]).
    { rewrite Hf. unfold Agents.resume. rewrite Hreply.
      rewrite (runSpecialist_resume_marker _ _ _ _ Hsplit).
      unfold runCriticAndHost_begin, beginCall. cbn [emit apiKey model onAgentChange
        transitionTo withState addAgentMessage Agents.addAgentMessage].
      rewrite callGemini_request_sends by exact Hkey. reflexivity. }
    assert (Hs1 : exists req2,
               instance (run [CallProcessUserMessage userText; Deliver 0 o] w)
               = emit (Fetch req2)
                   (emit (AgentChange "Critic Agent")
                      (transitionTo CRITIC
                         (addAgentMessage "Genre Specialist" (trim pre)
                            (withState
                               (emit (Fetch req)
                                  (emit (AgentChange "Genre Specialist") (instance w)))
                               (setCurrentDemand (trim post) (state (instance w)))))))).
    { rewrite Hi. unfold Agents.resume. rewrite Hreply.
      rewrite (runSpecialist_resume_marker _ _ _ _ Hsplit).
      unfold runCriticAndHost_begin, beginCall. cbn [emit apiKey model onAgentChange
        transitionTo withState addAgentMessage Agents.addAgentMessage].
      rewrite callGemini_request_sends by exact Hkey. eexists. reflexivity. }
    destruct Hs1 as [req2 Hs1]. clear Hi Hf.
    split; [rewrite Hs1; reflexivity|]. split; [reflexivity|].
    split; [rewrite Hs1; reflexivity|]. split; [rewrite Hs1; reflexivity|].
    split; [rewrite Hs1; reflexivity|]. split; [exact Hw1|].
    intros o2. cbn [Runtime.exec]. rewrite Hw1. cbn [nth_error].
    rewrite Hs1. unfold Agents.resume.
    destruct (callGemini_reply o2) as [t|criticResponse].
    + cbn. split; reflexivity.
    + unfold runCriticAndHost_afterCritic, beginCall.
      cbn [emit apiKey model onAgentChange transitionTo withState].
      rewrite callGemini_request_sends by exact Hkey.
      cbn. rewrite <- List.app_assoc. repeat split; reflexivity.
Qed.

(** Whatever [callGemini] throws is an instance of [Error]. *)
Lemma callGemini_reply_throws_Error (o : FetchOutcome) (t : Thrown) :
  callGemini_reply o = inl t -> exists e, t = ThrownError e.
Proof.
  unfold callGemini_reply. destruct (tryBlock o) as [u|text]; [|discriminate].
  intros [= <-]. destruct u; eexists; reflexivity.
Qed.

Lemma errorNotice_embeds (msg : string) : embeds (errorNotice msg) msg.
Proof. unfold embeds, occurs, errorNotice. eexists _, _. reflexivity. Qed.

(** C3 (amended). When the generation call a turn is waiting for (the call
    of stage PROFILER, SPECIALIST or HOST) fails, the promise of
    [processUserMessage] is rejected with that same failure, the stage, the
    stack and the stored payloads are as before the turn, and exactly one
    message is appended: the error notice around the failure's message,
    written as an agent message under the name "System" (its [role] is
    [agent], not [system]). *)
Theorem awaited_call_failure_is_reported
        (s : AgentSystem) (userText : string) (o : FetchOutcome) (t : Thrown) :
  isBackwardRequest userText = false ->
  currentRole (state s) <> CRITIC ->
  (if credentialMissing (apiKey s)
   then t = ThrownError configurationError
   else callGemini_reply o = inl t) ->
  let r := turn userText o s in
  exists e,
    t = ThrownError e /\
    let notice := newAgentMessage (built s) "System" (errorNotice (errMessage e)) in
    outcome r = Done (RejectedWith t) /\
    floating r = None /\
    currentRole (state (after r)) = currentRole (state s) /\
    stateHistory (state (after r)) = stateHistory (state s) /\
    userProfile (state (after r)) = userProfile (state s) /\
    currentDemand (state (after r)) = currentDemand (state s) /\
    recommendations (state (after r)) = recommendations (state s) /\
    history (state (after r)) = (history (state s) ++ [notice])%list /\
    role notice = agent /\
    agentName notice = Some "System" /\
    embeds (content notice) (errMessage e).
Proof.
  intros Hback Hrole Hfail.
  destruct (frameFor_calling _ Hrole) as [f Hf].
  destruct (credentialMissing (apiKey s)) eqn:Hkey.
  - subst t. exists configurationError. split; [reflexivity|].
    unfold Agents.turn.
    rewrite (processUserMessage_unconfigured s userText f Hback Hkey Hf).
    cbn. repeat split; try reflexivity. apply errorNotice_embeds.
  - destruct (callGemini_reply_throws_Error _ _ Hfail) as [e ->].
    exists e. split; [reflexivity|].
    destruct (processUserMessage_suspends s userText f Hback Hkey Hf) as [req Hp].
    unfold Agents.turn. rewrite Hp. clear Hp.
    unfold Agents.resume. rewrite Hfail.
    destruct (currentRole (state s)) eqn:E; cbn in Hf; try discriminate;
      injection Hf as <-; cbn; rewrite ?E;
      (repeat split; try reflexivity); apply errorNotice_embeds.
Qed.

(** The SPECIALIST turn with the marker, seen from the caller: the promise
    of [processUserMessage] is fulfilled while the critic request, the only
    one sent after the specialist's, is still waiting for its reply. *)
Lemma specialist_turn_settles_with_critic_in_flight
      (w : World) (userText response pre post : string) (o : FetchOutcome) :
  inFlight w = [] ->
  isBackwardRequest userText = false ->
  credentialMissing (apiKey (instance w)) = false ->
  currentRole (state (instance w)) = SPECIALIST ->
  callGemini_reply o = inr response ->
  first_split demandMarker response pre post ->
  let w1 := run [CallProcessUserMessage userText; Deliver 0 o] w in
  turnsSettled w1 = (turnsSettled w ++ [Fulfilled])%list /\
  droppedSettled w1 = droppedSettled w /\
  inFlight w1 = [InCriticStep] /\
  currentRole (state (instance w1)) = CRITIC /\
  fetchCount (trace (instance w1)) = fetchCount (trace (instance w)) + 2.
Proof.
  intros Hidle Hback Hkey Hrole Hreply Hsplit.
  destruct (processUserMessage_suspends _ userText InRunSpecialist Hback Hkey)
    as [req Hp]; [rewrite Hrole; reflexivity|].
  cbn [Runtime.run fold_left Runtime.exec]. rewrite Hp, Hidle. clear Hp.
  cbn [inFlight waitingOf app nth_error instance].
  unfold Agents.resume. rewrite Hreply.
  rewrite (runSpecialist_resume_marker _ _ _ _ Hsplit).
  unfold runCriticAndHost_begin, beginCall.
  cbn [emit apiKey model onAgentChange transitionTo withState
       Agents.addAgentMessage].
  rewrite callGemini_request_sends by exact Hkey.
  unfold fetchCount. cbn.
  rewrite !List.app_nil_r, !filter_app, !List.length_app. cbn.
  repeat split; try reflexivity. lia.
Qed.

(** Backward navigation on a stack of at least two entries: one entry is
    popped, the new top becomes the stage, the payloads are reset as the
    destination asks, and no request is sent.  A destination other than
    CRITIC greets with one message of its own; CRITIC has none. *)
Lemma backward_pops_one_stage
      (s : AgentSystem) (userText : string) (below : list AgentRole)
      (destination left : AgentRole) :
  isBackwardRequest userText = true ->
  stateHistory (state s) = (below ++ [destination; left])%list ->
  let r := processUserMessage userText s in
  let expected := clearedOnReturn destination (state s) in
  snd r = Done Fulfilled /\
  stateHistory (state (fst r)) = (below ++ [destination])%list /\
  currentRole (state (fst r)) = destination /\
  userProfile (state (fst r)) = userProfile expected /\
  currentDemand (state (fst r)) = currentDemand expected /\
  recommendations (state (fst r)) = recommendations expected /\
  fetchCount (trace (fst r)) = fetchCount (trace s) /\
  match destination with
  | CRITIC =>
      history (state (fst r)) = history (state s) /\ trace (fst r) = trace s
  | _ =>
      exists text,
        let greeting := newAgentMessage (built s) (getAgentName destination) text in
        history (state (fst r)) = (history (state s) ++ [greeting])%list /\
        trace (fst r) = (trace s ++ [MessageUpdate [greeting]])%list
  end.
Proof.
  intros Hback Hstack. unfold Agents.processUserMessage. rewrite Hback.
  unfold Agents.goBack. rewrite Hstack.
  replace (below ++ [destination; left])%list
    with ((below ++ [destination]) ++ [left])%list
    by (rewrite <- List.app_assoc; reflexivity).
  rewrite removelast_last, last_last.
  destruct (Nat.leb_spec (List.length ((below ++ [destination]) ++ [left])) 1)
    as [Hle|_].
  { rewrite !List.length_app in Hle. cbn in Hle. lia. }
  unfold fetchCount.
  destruct destination; cbn [fst snd clearedOnReturn];
    (split; [reflexivity|]); (split; [reflexivity|]); (split; [reflexivity|]);
    (split; [reflexivity|]); (split; [reflexivity|]); (split; [reflexivity|]).
  - split.
    + cbn. rewrite filter_app, List.length_app. cbn. lia.
    + eexists. split; reflexivity.
  - split.
    + cbn. rewrite filter_app, List.length_app. cbn. lia.
    + eexists. split; reflexivity.
  - split; [reflexivity|]. split; reflexivity.
  - split.
    + cbn. rewrite filter_app, List.length_app. cbn. lia.
    + eexists. split; reflexivity.
Qed.

End CallingTurns.

(** ** What the prompts carry *)

Section Prompts.
Import JsString Llm Agents Runtime Spec.

Variable PROMPTS : AgentRole -> string.
Variable Date_now : nat -> N.
Variable Math_random : nat -> string.

Local Abbreviation processUserMessage := (processUserMessage PROMPTS Date_now Math_random).
Local Abbreviation newAgentMessage := (newAgentMessage Date_now Math_random).
Local Abbreviation resume := (resume PROMPTS Date_now Math_random).

Lemma occurs_self (x : string) : occurs x x.
Proof.
  exists EmptyString, EmptyString. cbn.
  induction x as [|c x IH]; cbn; [reflexivity | now rewrite <- IH].
Qed.

Lemma occurs_prefix (x b : string) : occurs x (x ++ b).
Proof. exists EmptyString, b. reflexivity. Qed.

Lemma occurs_app_l (x a b : string) : occurs x a -> occurs x (a ++ b).
Proof.
  intros (pre & post & ->). exists pre, (post ++ b).
  now rewrite !append_assoc.
Qed.

Lemma occurs_app_r (x a b : string) : occurs x b -> occurs x (a ++ b).
Proof.
  intros (pre & post & ->). exists (a ++ pre), post.
  now rewrite !append_assoc.
Qed.

(** Looks for the piece among the operands of nested appends. *)
Ltac find_piece :=
  solve [ apply occurs_self
        | apply occurs_prefix
        | apply occurs_app_l; find_piece
        | apply occurs_app_r; find_piece ].

Ltac prompt_embeds :=
  unfold embeds, profilerPrompt, specialistPrompt, criticPrompt, hostPrompt,
    hostChatPrompt, joinLines;
  cbn [String.concat]; find_piece.

Lemma profilerPrompt_embeds (userInput context : string) :
  embeds (profilerPrompt userInput context) userInput /\
  embeds (profilerPrompt userInput context) context.
Proof. split; prompt_embeds. Qed.

Lemma specialistPrompt_embeds (profile userInput context : string) :
  embeds (specialistPrompt profile userInput context) profile /\
  embeds (specialistPrompt profile userInput context) userInput /\
  embeds (specialistPrompt profile userInput context) context.
Proof. repeat split; prompt_embeds. Qed.

Lemma criticPrompt_embeds (profile demand : string) :
  embeds (criticPrompt profile demand) profile /\
  embeds (criticPrompt profile demand) demand.
Proof. split; prompt_embeds. Qed.

Lemma hostPrompt_embeds (recs profile demand : string) :
  embeds (hostPrompt recs profile demand) recs /\
  embeds (hostPrompt recs profile demand) profile /\
  embeds (hostPrompt recs profile demand) demand.
Proof. repeat split; prompt_embeds. Qed.

Lemma hostChatPrompt_embeds (userInput context recs : string) :
  embeds (hostChatPrompt userInput context recs) userInput /\
  embeds (hostChatPrompt userInput context recs) context /\
  embeds (hostChatPrompt userInput context recs) recs.
Proof. repeat split; prompt_embeds. Qed.

(** [slice(-n)] for [n > 0] is the trailing window of at most [n] entries. *)
Lemma sliceLast_window {A : Type} (n : nat) (xs : list A) :
  n <> 0 ->
  exists older,
    xs = (older ++ sliceLast n xs)%list /\
    List.length (sliceLast n xs) = Nat.min n (List.length xs).
Proof.
  intros Hn. unfold sliceLast.
  destruct (Nat.eqb_spec n 0) as [->|_]; [now destruct Hn|].
  exists (firstn (List.length xs - n) xs). split.
  - symmetry. apply firstn_skipn.
  - rewrite length_skipn. lia.
Qed.

(** C9 (amended). The prompts built on user input (PROFILER, SPECIALIST and
    HOST when the user writes) embed the raw input of the turn and the last
    five history entries, one [role: content] line each; of the stored
    data the SPECIALIST prompt embeds the profile and the HOST prompt the
    recommendations.  The critic prompt is built from the profile and the
    demand alone, and the presentation prompt that follows it from the
    recommendations, the profile and the demand alone. *)
Theorem prompts_embed_their_call_site_data :
  (forall (s : AgentSystem) (userText : string) (f : Frame),
      isBackwardRequest userText = false ->
      credentialMissing (apiKey s) = false ->
      frameFor (currentRole (state s)) = Some f ->
      exists req prompt older window,
        processUserMessage userText s
        = (emit (Fetch req)
             (emit (AgentChange (getAgentName (currentRole (state s)))) s),
           Awaiting f) /\
        promptOf req = [prompt] /\
        history (state s) = (older ++ window)%list /\
        List.length window = Nat.min 5 (List.length (history (state s))) /\
        embeds prompt userText /\
        embeds prompt
          (joinLines (map (fun m => roleName (role m) ++ ": " ++ content m) window)) /\
        match currentRole (state s) with
        | SPECIALIST => embeds prompt (userProfile (state s))
        | HOST => embeds prompt (recommendations (state s))
        | _ => True
        end) /\
  (forall (s : AgentSystem) (o : FetchOutcome) (response pre post : string),
      credentialMissing (apiKey s) = false ->
      callGemini_reply o = inr response ->
      first_split demandMarker response pre post ->
      exists req reply,
        trace (after (resume InRunSpecialist o s))
        = (trace s ++ [MessageUpdate [reply]; AgentChange "Critic Agent"; Fetch req])%list /\
        promptOf req = [criticPrompt (userProfile (state s)) (trim post)] /\
        embeds (criticPrompt (userProfile (state s)) (trim post))
               (userProfile (state s)) /\
        embeds (criticPrompt (userProfile (state s)) (trim post)) (trim post)) /\
  (forall (s : AgentSystem) (o : FetchOutcome) (criticResponse : string),
      credentialMissing (apiKey s) = false ->
      callGemini_reply o = inr criticResponse ->
      let prompt :=
        hostPrompt criticResponse (userProfile (state s)) (currentDemand (state s)) in
      exists req,
        trace (after (resume InCriticStep o s))
        = (trace s ++ [AgentChange "Host Agent"; Fetch req])%list /\
        promptOf req = [prompt] /\
        embeds prompt criticResponse /\
        embeds prompt (userProfile (state s)) /\
        embeds prompt (currentDemand (state s))).
Proof.
  split; [|split].
  - intros s userText f Hback Hkey Hf.
    destruct (sliceLast_window 5 (history (state s))) as (older & Hold & Hlen);
      [discriminate|].
    unfold Agents.processUserMessage. rewrite Hback.
    cbn [onAgentChange emit state].
    destruct (currentRole (state s)); cbn in Hf; try discriminate;
      injection Hf as <-;
      unfold runProfiler_begin, runSpecialist_begin, runHost_begin, beginCall;
      cbn [emit apiKey model];
      rewrite callGemini_request_sends by exact Hkey;
      eexists _, _, older, (sliceLast 5 (history (state s)));
      (split; [reflexivity|]); (split; [reflexivity|]);
      (split; [exact Hold|]); (split; [exact Hlen|]);
      cbn [emit state]; unfold buildContext, formatMessage; cbn [state].
    + split; [apply profilerPrompt_embeds|]. split; [apply profilerPrompt_embeds|].
      exact I.
    + split; [apply specialistPrompt_embeds|].
      split; [apply specialistPrompt_embeds|]. apply specialistPrompt_embeds.
    + split; [apply hostChatPrompt_embeds|].
      split; [apply hostChatPrompt_embeds|]. apply hostChatPrompt_embeds.
  - intros s o response pre post Hkey Hreply Hsplit.
    unfold Agents.resume. rewrite Hreply.
    rewrite (runSpecialist_resume_marker PROMPTS Date_now Math_random _ _ _ _ Hsplit).
    unfold runCriticAndHost_begin, beginCall.
    cbn [emit apiKey model onAgentChange transitionTo withState
         Agents.addAgentMessage].
    rewrite callGemini_request_sends by exact Hkey.
    eexists _, _. cbn. rewrite <- !List.app_assoc. cbn.
    split; [reflexivity|]. split; [reflexivity|]. apply criticPrompt_embeds.
  - intros s o criticResponse Hkey Hreply prompt.
    unfold Agents.resume. rewrite Hreply.
    unfold runCriticAndHost_afterCritic, beginCall.
    cbn [emit apiKey model onAgentChange transitionTo withState].
    rewrite callGemini_request_sends by exact Hkey.
    eexists. cbn. rewrite <- !List.app_assoc. cbn.
    split; [reflexivity|]. split; [reflexivity|]. apply hostPrompt_embeds.
Qed.

End Prompts.

(** ** The client *)

Section Client.
Import JsString Llm Agents Runtime Spec.

Variable PROMPTS : AgentRole -> string.
Variable Date_now : nat -> N.
Variable Math_random : nat -> string.

Variable net : Request -> FetchOutcome.
Variables key mdl prompt : string.
Variable instruction : option string.

Local Abbreviation sent := (fst (callGemini net key mdl prompt instruction)).
Local Abbreviation result := (snd (callGemini net key mdl prompt instruction)).
Local Abbreviation processUserMessage := (processUserMessage PROMPTS Date_now Math_random).





End Client.

(** ** Scenarios *)

Section Scenarios.
Import JsString Llm Agents Runtime Spec Sample.

Local Abbreviation processUserMessage := (processUserMessage prompts clock random).
Local Abbreviation turn := (turn prompts clock random).
Local Abbreviation resume := (resume prompts clock random).
Local Abbreviation run := (run prompts clock random).
Local Abbreviation exec := (exec prompts clock random).

Lemma not_includes_not_embeds (prompt text : string) :
  includes text prompt = false -> ~ embeds prompt text.
Proof.
  intros H Hocc. apply includes_occurs in Hocc. rewrite Hocc in H. discriminate.
Qed.

Example blank_credentials :
  credentialMissing EmptyString = true /\
  credentialMissing "   " = true /\
  credentialMissing (" " ++ newline ++ "　") = true /\
  credentialMissing key = false /\
  credentialMissing " AIza " = false.
Proof. vm_compute. repeat split; reflexivity. Qed.

(** The profile scenario of the specification: the reply shown is the text
    before the marker, the stored profile the text after it, and the stage
    becomes SPECIALIST. *)
Example profile_scenario :
  map content (history (state (instance atSpecialist)))
  = [ "hello"; "我喜欢盗梦空间、星际穿越、黑客帝国"; "好的！" ] /\
  userProfile (state (instance atSpecialist)) = "科幻, 悬疑, 烧脑" /\
  currentRole (state (instance atSpecialist)) = SPECIALIST /\
  stateHistory (state (instance atSpecialist)) = [PROFILER; SPECIALIST].
Proof. vm_compute. repeat split; reflexivity. Qed.

(** The backward scenario of the specification: from SPECIALIST on the
    stack [PROFILER; SPECIALIST] to PROFILER, payloads cleared, one message,
    no request. *)
Example backward_scenario :
  let w := exec atSpecialist (CallProcessUserMessage "返回上一步") in
  currentRole (state (instance w)) = PROFILER /\
  stateHistory (state (instance w)) = [PROFILER] /\
  userProfile (state (instance w)) = EmptyString /\
  currentDemand (state (instance w)) = EmptyString /\
  recommendations (state (instance w)) = EmptyString /\
  List.length (history (state (instance w)))
  = S (List.length (history (state (instance atSpecialist)))) /\
  fetchCount (trace (instance w)) = fetchCount (trace (instance atSpecialist)).
Proof. vm_compute. repeat split; reflexivity. Qed.

(** C2 (the code at a SPECIALIST response with the marker).  When the
    promise of [processUserMessage] is fulfilled the stage is CRITIC, not
    HOST: only the critic request has been sent, it is still in flight, and
    the host request has not been sent.  HOST is reached only later, when
    the two replies have come in. *)
Theorem turn_settles_while_critic_call_is_in_flight :
  currentRole (state (instance atSpecialist)) = SPECIALIST /\
  includes demandMarker demandResponse = true /\
  turnsSettled criticPending = (turnsSettled atSpecialist ++ [Fulfilled])%list /\
  currentRole (state (instance criticPending)) = CRITIC /\
  inFlight criticPending = [InCriticStep] /\
  droppedSettled criticPending = [] /\
  fetchCount (trace (instance criticPending))
  = fetchCount (trace (instance atSpecialist)) + 2 /\
  currentRole (state (instance atHost)) = HOST /\
  turnsSettled atHost = turnsSettled criticPending /\
  droppedSettled atHost = [Fulfilled].
Proof. vm_compute. repeat split; reflexivity. Qed.

(** C5 (the code one step back from HOST).  After the compound transition
    the stack is [PROFILER; SPECIALIST; CRITIC; HOST]; a backward request
    pops HOST and lands on CRITIC without emitting any message. *)
Theorem backward_from_host_lands_on_critic_in_silence :
  let w := exec atHost (CallProcessUserMessage "返回") in
  isBackwardRequest "返回" = true /\
  stateHistory (state (instance atHost)) = [PROFILER; SPECIALIST; CRITIC; HOST] /\
  currentRole (state (instance w)) = CRITIC /\
  stateHistory (state (instance w)) = [PROFILER; SPECIALIST; CRITIC] /\
  history (state (instance w)) = history (state (instance atHost)) /\
  trace (instance w) = trace (instance atHost).
Proof. vm_compute. repeat split; reflexivity. Qed.

(** C1 as stated fails: the SPECIALIST response holds the marker, yet once
    the critic call has failed nothing is in flight any more and the stage
    is CRITIC, not HOST. *)
Lemma specialist_marker_without_host :
  let w := answered unavailable criticPending in
  currentRole (state (instance atSpecialist)) = SPECIALIST /\
  includes demandMarker demandResponse = true /\
  inFlight w = [] /\
  currentRole (state (instance w)) = CRITIC /\
  currentRole (state (instance w)) <> HOST.
Proof. vm_compute. repeat split; try reflexivity. discriminate. Qed.

(** C3 as stated fails: the message appended for a failed call has role
    [agent]; no message of role [system] is appended. *)
Lemma error_notice_is_an_agent_message :
  let r := turn "我喜欢盗梦空间" unavailable fresh in
  outcome r
  = Done (RejectedWith
            (ThrownError
               (newError "API Error 503: Service Unavailable. overloaded"))) /\
  map role (history (state (after r))) = [agent] /\
  map agentName (history (state (after r))) = [Some "System"] /\
  ~ In system (map role (history (state (after r)))).
Proof.
  vm_compute. repeat split; try reflexivity.
  intros [H|[]]. discriminate.
Qed.

(** C9 as stated fails: the critic prompt embeds neither the input of the
    turn nor the history line of that input, and the prompt of HOST on user
    input embeds neither the profile nor the demand. *)
Lemma critic_and_host_prompts_omit_claimed_parts :
  (exists prompt,
      nth_error (promptsSent (trace (instance criticPending))) 2 = Some prompt /\
      prompt = criticPrompt "科幻, 悬疑, 烧脑" "科幻片" /\
      ~ embeds prompt "想看科幻" /\
      ~ embeds prompt "user: 想看科幻") /\
  (exists prompt,
      nth_error
        (promptsSent (trace (instance (userSends "还有别的吗" atHost)))) 4
      = Some prompt /\
      userProfile (state (instance atHost)) = "科幻, 悬疑, 烧脑" /\
      currentDemand (state (instance atHost)) = "科幻片" /\
      ~ embeds prompt "科幻, 悬疑, 烧脑" /\
      ~ embeds prompt "科幻片").
Proof.
  split; eexists; (split; [vm_compute; reflexivity|]).
  - split; [vm_compute; reflexivity|].
    split; apply not_includes_not_embeds; vm_compute; reflexivity.
  - split; [vm_compute; reflexivity|]. split; [vm_compute; reflexivity|].
    split; apply not_includes_not_embeds; vm_compute; reflexivity.
Qed.

End Scenarios.

(** ** The theorems at concrete inputs *)

Section Instances.
Import JsString Llm Agents Runtime Spec Sample.

Local Abbreviation processUserMessage := (processUserMessage prompts clock random).
Local Abbreviation turn := (turn prompts clock random).
Local Abbreviation run := (run prompts clock random).

Lemma marker_splits_response_and_advances_at_profiler :
  inFlight opened = [] /\
  isBackwardRequest "hi" = false /\
  credentialMissing (apiKey (instance opened)) = false /\
  first_split profileMarker "ok ||PROFILE_READY|| a" "ok " " a" /\
  userProfile
    (state (instance
              (run [ CallProcessUserMessage "hi";
                     Deliver 0 (okReply "ok ||PROFILE_READY|| a") ] opened)))
  = "a".
Proof.
  assert (Hsplit : first_split profileMarker "ok ||PROFILE_READY|| a" "ok " " a").
  { apply first_split_by_index; vm_compute; reflexivity. }
  split; [reflexivity|]. split; [vm_compute; reflexivity|].
  split; [vm_compute; reflexivity|]. split; [exact Hsplit|].
  pose proof (marker_splits_response_and_advances prompts clock random
                opened "hi" "ok ||PROFILE_READY|| a" profileMarker "ok " " a"
                (okReply "ok ||PROFILE_READY|| a")
                eq_refl
                ltac:(vm_compute; reflexivity)
                ltac:(vm_compute; reflexivity)
                ltac:(vm_compute; reflexivity)
                ltac:(vm_compute; reflexivity)
                Hsplit) as H.
  cbv zeta in H. destruct H as (_ & _ & H).
  change (currentRole (state (instance opened))) with PROFILER in H.
  destruct H as (H & _). rewrite H. vm_compute. reflexivity.
Defined.

Lemma awaited_call_failure_is_reported_at_profiler :
  isBackwardRequest "hi" = false /\
  currentRole (state fresh) <> CRITIC /\
  currentRole (state (after (turn "hi" unavailable fresh))) = PROFILER.
Proof.
  split; [vm_compute; reflexivity|]. split; [discriminate|].
  destruct (awaited_call_failure_is_reported prompts clock random
              fresh "hi" unavailable
              (ThrownError (newError "API Error 503: Service Unavailable. overloaded"))
              ltac:(vm_compute; reflexivity)
              ltac:(discriminate)
              ltac:(vm_compute; reflexivity))
    as (e & _ & _ & _ & H & _).
  rewrite H. reflexivity.
Defined.

Lemma response_without_marker_is_the_reply_at_profiler :
  isBackwardRequest "hi" = false /\
  credentialMissing (apiKey fresh) = false /\
  lacksMarker (currentRole (state fresh)) "tell me more" /\
  map content (history (state (after (turn "hi" (okReply "tell me more") fresh))))
  = [ "tell me more" ].
Proof.
  split; [vm_compute; reflexivity|]. split; [vm_compute; reflexivity|].
  split; [vm_compute; reflexivity|].
  destruct (response_without_marker_is_the_reply prompts clock random
              fresh "hi" "tell me more" (okReply "tell me more")
              ltac:(vm_compute; reflexivity)
              ltac:(vm_compute; reflexivity)
              ltac:(discriminate)
              ltac:(vm_compute; reflexivity)
              ltac:(vm_compute; reflexivity))
    as (_ & _ & _ & _ & _ & _ & _ & H & _).
  rewrite H. reflexivity.
Defined.

Lemma backward_refused_on_single_entry_at_start :
  isBackwardRequest "返回上一步" = true /\
  List.length (stateHistory (state fresh)) = 1 /\
  stateHistory (state (fst (processUserMessage "返回上一步" fresh))) = [PROFILER].
Proof.
  split; [vm_compute; reflexivity|]. split; [reflexivity|].
  destruct (backward_refused_on_single_entry prompts clock random
              fresh "返回上一步" ltac:(vm_compute; reflexivity) eq_refl)
    as (_ & _ & H & _).
  rewrite H. reflexivity.
Defined.

Lemma critic_stage_ignores_input_while_critic_pending :
  isBackwardRequest "hello" = false /\
  currentRole (state (instance criticPending)) = CRITIC /\
  state (fst (processUserMessage "hello" (instance criticPending)))
  = state (instance criticPending).
Proof.
  split; [vm_compute; reflexivity|]. split; [vm_compute; reflexivity|].
  destruct (critic_stage_ignores_input prompts clock random
              (instance criticPending) "hello"
              ltac:(vm_compute; reflexivity) ltac:(vm_compute; reflexivity))
    as (_ & H & _).
  exact H.
Defined.


Lemma prompts_embed_their_call_site_data_at_profiler :
  isBackwardRequest "hi" = false /\
  credentialMissing (apiKey fresh) = false /\
  exists req prompt,
    snd (processUserMessage "hi" fresh) = Awaiting InRunProfiler /\
    promptOf req = [prompt] /\ embeds prompt "hi".
Proof.
  assert (Hback : isBackwardRequest "hi" = false) by (vm_compute; reflexivity).
  assert (Hkey : credentialMissing (apiKey fresh) = false)
    by (vm_compute; reflexivity).
  split; [exact Hback|]. split; [exact Hkey|].
  destruct (prompts_embed_their_call_site_data prompts clock random) as (H & _).
  destruct (H fresh "hi" InRunProfiler Hback Hkey eq_refl)
    as (req & prompt & _ & _ & Hp & Hq & _ & _ & He & _).
  exists req, prompt. rewrite Hp. repeat split; assumption.
Defined.

End Instances.

(** ** What a step does to the trace and the history *)

Section StepEffects.
Import JsString Llm Agents Runtime Spec Laws.

Variable PROMPTS : AgentRole -> string.
Variable Date_now : nat -> N.
Variable Math_random : nat -> string.

Local Abbreviation processUserMessage := (processUserMessage PROMPTS Date_now Math_random).
Local Abbreviation resume := (resume PROMPTS Date_now Math_random).
Local Abbreviation run := (run PROMPTS Date_now Math_random).
Local Abbreviation exec := (exec PROMPTS Date_now Math_random).
Local Abbreviation delivered := (delivered PROMPTS Date_now Math_random).
Local Abbreviation serialized := (serialized PROMPTS Date_now Math_random).

Ltac effects_done :=
  first
    [ exists (@nil Event); split;
      [ cbn; rewrite ?List.app_nil_r; reflexivity
      | reflexivity | reflexivity
      | cbn; rewrite ?List.app_nil_r; reflexivity
      | constructor | reflexivity | constructor ]
    | eexists; split;
      [ cbn; rewrite <- ?List.app_assoc; cbn; reflexivity
      | reflexivity | reflexivity
      | cbn; rewrite <- ?List.app_assoc; rewrite ?List.app_nil_r; reflexivity
      | cbn; repeat constructor; discriminate
      | reflexivity
      | cbn; repeat constructor; try assumption; eexists _, _;
        match goal with
        | H : credentialMissing _ = false |- _ =>
            rewrite callGemini_request_sends by exact H
        end; reflexivity ] ].

Ltac split_on_credential s :=
  let Hkey := fresh "Hkey" in
  destruct (credentialMissing (apiKey s)) eqn:Hkey;
  [ rewrite callGemini_request_refuses by exact Hkey
  | rewrite callGemini_request_sends by exact Hkey ].

Lemma processUserMessage_effects (s : AgentSystem) (userText : string) :
  exists added,
    Effects s (fst (processUserMessage userText s)) added
            (waitingOf (snd (processUserMessage userText s))).
Proof.
  unfold Agents.processUserMessage, Agents.goBack.
  destruct (isBackwardRequest userText).
  - destruct (List.length (stateHistory (state s)) <=? 1)%nat.
    + effects_done.
    + cbn [fst snd]. destruct (last _ _); effects_done.
  - cbn [onAgentChange emit state].
    destruct (currentRole (state s));
      unfold runProfiler_begin, runSpecialist_begin, runHost_begin, beginCall;
      try split_on_credential s;
      cbn [awaitOrCatch catchError fst snd waitingOf]; effects_done.
Qed.

Lemma resume_effects (f : Frame) (o : FetchOutcome) (s : AgentSystem) :
  exists added, Effects s (after (resume f o s)) added (startedBy (resume f o s)).
Proof.
  unfold Agents.resume, startedBy.
  destruct f; destruct (callGemini_reply o) as [t|response];
    cbn [settle catchError after outcome floating fst snd waitingOf app
         runCriticAndHost_afterHost runHost_resume];
    try effects_done.
  - unfold runProfiler_resume. destruct (includes profileMarker response);
      effects_done.
  - unfold runSpecialist_resume. destruct (includes demandMarker response);
      [|effects_done].
    unfold runCriticAndHost_begin, beginCall.
    split_on_credential s;
      cbn [after outcome floating waitingOf app]; effects_done.
  - unfold runCriticAndHost_afterCritic, beginCall.
    split_on_credential s;
      cbn [fst snd after outcome floating waitingOf app]; effects_done.
Qed.

Lemma requestsOf_app (a b : list Event) :
  requestsOf (a ++ b) = (requestsOf a ++ requestsOf b)%list.
Proof. apply flat_map_app. Qed.

Lemma In_requestsOf (req : Request) (t : list Event) :
  In (Fetch req) t <-> In req (requestsOf t).
Proof.
  unfold requestsOf. rewrite in_flat_map. split.
  - intros H. exists (Fetch req). split; [exact H | left; reflexivity].
  - intros (ev & Hin & Hreq). destruct ev; cbn in Hreq; try contradiction.
    destruct Hreq as [->|[]]. exact Hin.
Qed.

Lemma length_removeNth {A : Type} (i : nat) (xs : list A) (x : A) :
  nth_error xs i = Some x -> S (List.length (removeNth i xs)) = List.length xs.
Proof.
  revert i. induction xs as [|y xs IH]; intros [|i] H; cbn in *;
    try discriminate; [reflexivity|].
  rewrite (IH _ H). reflexivity.
Qed.

(** The world after one action, next to the world before: the trace only
    grows, a call other than [setHistory] only appends to the history what
    it publishes, and it sends as many requests as it leaves frames
    waiting. *)
Lemma exec_effects (w : World) (a : Action) :
  exists added,
    trace (instance (exec w a)) = (trace (instance w) ++ added)%list /\
    apiKey (instance (exec w a)) = apiKey (instance w) /\
    model (instance (exec w a)) = model (instance w) /\
    Forall (sentBy (instance w)) (requestsOf added) /\
    Forall agentAuthored (published added) /\
    List.length (requestsOf added) + List.length (inFlight w)
    = List.length (inFlight (exec w a)) + delivered [a] w /\
    ((forall h, a <> CallSetHistory h) ->
     history (state (instance (exec w a)))
     = (history (state (instance w)) ++ published added)%list).
Proof.
  destruct a as [h|text|i o]; cbn [Runtime.exec Laws.delivered].
  - exists []. cbn. rewrite List.app_nil_r.
    repeat split; try constructor; try lia.
    intros H. exfalso. apply (H h). reflexivity.
  - destruct (processUserMessage_effects (instance w) text) as [added E].
    destruct (processUserMessage text (instance w)) as [s' st]. cbn in *.
    destruct E. exists added. rewrite List.length_app.
    repeat split; try assumption; [lia | intros _; assumption].
  - destruct (nth_error (inFlight w) i) as [f|] eqn:Hf.
    + destruct (resume_effects f o (instance w)) as [added E].
      destruct E. unfold startedBy in *. exists added. cbn.
      rewrite !List.length_app in *. pose proof (length_removeNth _ _ _ Hf).
      repeat split; try assumption; [lia | intros _; assumption].
    + exists []. cbn. rewrite List.app_nil_r.
      repeat split; try constructor; try lia. intros _. cbn. now rewrite List.app_nil_r.

Qed.

End StepEffects.

(** ** Laws of every run *)

Section RunLaws.
Import JsString Llm Agents Runtime Spec Laws.

Variable PROMPTS : AgentRole -> string.
Variable Date_now : nat -> N.
Variable Math_random : nat -> string.

Local Abbreviation processUserMessage := (processUserMessage PROMPTS Date_now Math_random).
Local Abbreviation resume := (resume PROMPTS Date_now Math_random).
Local Abbreviation run := (run PROMPTS Date_now Math_random).
Local Abbreviation exec := (exec PROMPTS Date_now Math_random).
Local Abbreviation delivered := (delivered PROMPTS Date_now Math_random).
Local Abbreviation serialized := (serialized PROMPTS Date_now Math_random).
Local Abbreviation exec_effects := (exec_effects PROMPTS Date_now Math_random).

(** X1. Apart from [setHistory], nothing the instance does removes or
    rewrites a message of its history: a call of [processUserMessage] and
    the arrival of a reply only append, what they append is exactly what
    they hand to [onMessageUpdate], in the same order, and every such
    message is an agent message with an agent name. *)
Theorem history_grows_by_what_is_published (w : World) (a : Action) :
  (forall h, a <> CallSetHistory h) ->
  exists added,
    trace (instance (exec w a)) = (trace (instance w) ++ added)%list /\
    history (state (instance (exec w a)))
    = (history (state (instance w)) ++ published added)%list /\
    Forall agentAuthored (published added).
Proof.
  intros Ha. destruct (exec_effects w a) as (added & Ht & _ & _ & _ & Hp & _ & Hh).
  exists added. split; [exact Ht|]. split; [exact (Hh Ha) | exact Hp].
Qed.

Lemma sentBy_wellFormed (s : AgentSystem) (req : Request) :
  sentBy s req ->
  credentialMissing (apiKey s) = false /\
  wellFormedRequest (apiKey s) (model s) req.
Proof.
  intros [Hkey (prompt & instruction & Hreq)]. split; [exact Hkey|].
  rewrite callGemini_request_sends in Hreq by exact Hkey.
  injection Hreq as <-. unfold wellFormedRequest. cbn.
  repeat split. eexists. reflexivity.
Qed.

Lemma sentBy_same (s s' : AgentSystem) (req : Request) :
  apiKey s' = apiKey s -> model s' = model s -> sentBy s req -> sentBy s' req.
Proof. unfold sentBy. intros -> ->. exact (fun H => H). Qed.

Lemma run_cons (a : Action) (actions : list Action) (w : World) :
  run (a :: actions) w = run actions (exec w a).
Proof. reflexivity. Qed.

Lemma run_requests (actions : list Action) (w : World) :
  Forall (sentBy (instance w)) (requestsOf (trace (instance w))) ->
  apiKey (instance (run actions w)) = apiKey (instance w) /\
  model (instance (run actions w)) = model (instance w) /\
  Forall (sentBy (instance w)) (requestsOf (trace (instance (run actions w)))).
Proof.
  revert w. induction actions as [|a actions IH]; intros w H.
  - repeat split. exact H.
  - rewrite run_cons.
    destruct (exec_effects w a) as (added & Ht & Hk & Hm & Hs & _).
    destruct (IH (exec w a)) as (Hk' & Hm' & Hs').
    + rewrite Ht, requestsOf_app. apply Forall_app. split.
      * revert H. apply Forall_impl. intros req. apply sentBy_same; assumption.
      * revert Hs. apply Forall_impl. intros req. apply sentBy_same; assumption.
    + split; [congruence|]. split; [congruence|].
      revert Hs'. apply Forall_impl. intros req.
      apply sentBy_same; symmetry; assumption.
Qed.

(** X2. Whatever the caller does and however the network answers, every
    request the instance ever sends is a POST to the endpoint of the model
    and credential it was constructed with, declares a JSON body, carries
    the fixed generation configuration and exactly one user block; and no
    request is ever sent from an instance whose credential is empty or
    blank. *)
Theorem every_request_is_well_formed
        (key mdl : string) (actions : list Action) (req : Request) :
  In (Fetch req) (trace (instance (run actions (boot key mdl)))) ->
  credentialMissing key = false /\ wellFormedRequest key mdl req.
Proof.
  intros Hin. apply In_requestsOf in Hin.
  destruct (run_requests actions (boot key mdl)) as (_ & _ & H);
    [constructor|].
  rewrite Forall_forall in H.
  apply (sentBy_wellFormed (instance (boot key mdl))), H, Hin.
Qed.

Lemma run_accounts (actions : list Action) (w : World) :
  List.length (requestsOf (trace (instance (run actions w))))
  + List.length (inFlight w)
  = List.length (requestsOf (trace (instance w)))
    + List.length (inFlight (run actions w)) + delivered actions w.
Proof.
  revert w. induction actions as [|a actions IH]; intros w.
  - cbn. lia.
  - rewrite run_cons. cbn [Laws.delivered].
    destruct (exec_effects w a) as (added & Ht & _ & _ & _ & _ & Hn & _).
    specialize (IH (exec w a)). rewrite Ht, requestsOf_app, List.length_app in IH.
    cbn [Laws.delivered] in Hn. lia.
Qed.

(** X3. No request is sent without a frame waiting for its reply, and no
    frame waits without a request: at any point of any run the number of
    requests sent so far is the number of replies delivered plus the number
    of frames still waiting. *)
Theorem every_request_is_awaited (key mdl : string) (actions : list Action) :
  let w := run actions (boot key mdl) in
  List.length (requestsOf (trace (instance w)))
  = delivered actions (boot key mdl) + List.length (inFlight w).
Proof.
  cbv zeta. pose proof (run_accounts actions (boot key mdl)) as H.
  cbn in H. lia.
Qed.

Lemma resume_starts_at_most_one (f : Frame) (o : FetchOutcome) (s : AgentSystem) :
  List.length (startedBy (resume f o s)) <= 1.
Proof.
  unfold Agents.resume, startedBy.
  destruct f; destruct (callGemini_reply o) as [t|response];
    cbn [settle catchError after outcome floating fst snd waitingOf app
         runCriticAndHost_afterHost runCriticAndHost_afterCritic
         runHost_resume List.length];
    try lia.
  - unfold runSpecialist_resume. destruct (includes demandMarker response);
      [|cbn; lia].
    unfold runCriticAndHost_begin, beginCall.
    destruct (callGemini_request _ _ _ _); cbn; lia.
  - unfold beginCall.
    destruct (callGemini_request _ _ _ _); cbn; lia.
Qed.

Lemma processUserMessage_starts_at_most_one (s : AgentSystem) (userText : string) :
  List.length (waitingOf (snd (processUserMessage userText s))) <= 1.
Proof. destruct (snd (processUserMessage userText s)); cbn; lia. Qed.

(** X4. When the caller starts a turn only while nothing is in flight,
    never more than one request is in flight: the critic and the host call
    of the compound transition follow one another, and neither overlaps the
    specialist call that started them. *)
Theorem serialized_use_keeps_one_request_in_flight
        (actions : list Action) (w : World) :
  List.length (inFlight w) <= 1 ->
  serialized actions w = true ->
  List.length (inFlight (run actions w)) <= 1.
Proof.
  revert w. induction actions as [|a actions IH]; intros w Hw Hser; [exact Hw|].
  rewrite run_cons. cbn [Laws.serialized] in Hser.
  apply andb_true_iff in Hser. destruct Hser as [Ha Hrest].
  apply IH; [|exact Hrest]. clear IH Hrest.
  destruct a as [h|text|i o]; cbn [Runtime.exec].
  - exact Hw.
  - destruct (inFlight w) eqn:Hidle; [|discriminate].
    pose proof (processUserMessage_starts_at_most_one (instance w) text) as H.
    destruct (processUserMessage text (instance w)) as [s' st].
    cbn in *. exact H.
  - destruct (nth_error (inFlight w) i) as [f|] eqn:Hf; [|exact Hw].
    pose proof (length_removeNth _ _ _ Hf) as Hlen.
    pose proof (resume_starts_at_most_one f o (instance w)) as H.
    unfold startedBy in H. cbn [inFlight]. rewrite !List.length_app in *. lia.
Qed.

End RunLaws.

(** ** Backward navigation *)

Section Navigation.
Import JsString Llm Agents Runtime Spec Laws.

Variable PROMPTS : AgentRole -> string.
Variable Date_now : nat -> N.
Variable Math_random : nat -> string.

Local Abbreviation processUserMessage := (processUserMessage PROMPTS Date_now Math_random).
Local Abbreviation resume := (resume PROMPTS Date_now Math_random).
Local Abbreviation run := (run PROMPTS Date_now Math_random).
Local Abbreviation goBack := (goBack Date_now Math_random).
Local Abbreviation goBackTimes := (goBackTimes Date_now Math_random).

(** A text is a backward request exactly when one of the six keywords
    occurs somewhere in it, whatever stands before and after. *)
Lemma isBackwardRequest_iff_keyword_occurs (text : string) :
  isBackwardRequest text = true
  <-> exists keyword, In keyword backwardKeywords /\ occurs keyword text.
Proof.
  unfold isBackwardRequest. rewrite existsb_exists.
  split; intros (keyword & Hin & H); exists keyword; (split; [exact Hin|]);
    apply includes_occurs; exact H.
Qed.

Lemma backward_request_stays_local (s : AgentSystem) (userText : string) :
  isBackwardRequest userText = true ->
  let r := processUserMessage userText s in
  snd r = Done Fulfilled /\
  exists added,
    trace (fst r) = (trace s ++ added)%list /\
    requestsOf added = [] /\
    announced added = [] /\
    List.length (published added) <= 1.
Proof.
  intros Hback. unfold Agents.processUserMessage. rewrite Hback.
  cbn [fst snd]. split; [reflexivity|].
  unfold Agents.goBack.
  destruct (List.length (stateHistory (state s)) <=? 1)%nat.
  - eexists. split; [cbn; reflexivity|]. cbn. repeat split. lia.
  - cbn [fst]. destruct (last _ _);
      first [ exists []; split; [cbn; now rewrite List.app_nil_r|];
              cbn; repeat split; lia
            | eexists; split; [cbn; reflexivity|]; cbn; repeat split; lia ].
Qed.

(** X5. A message that merely mentions one of the six keywords, anywhere in
    its text, is taken as backward navigation and never reaches the
    generation client: in any stage, with any stack and even with a missing
    credential the promise is fulfilled at once, no request is sent, no
    agent name is announced, and at most one message is published. *)
Theorem message_with_keyword_never_reaches_the_model
        (s : AgentSystem) (before keyword rest : string) :
  In keyword backwardKeywords ->
  let r := processUserMessage (before ++ keyword ++ rest) s in
  snd r = Done Fulfilled /\
  exists added,
    trace (fst r) = (trace s ++ added)%list /\
    requestsOf added = [] /\
    announced added = [] /\
    List.length (published added) <= 1.
Proof.
  intros Hin. apply backward_request_stays_local.
  apply isBackwardRequest_iff_keyword_occurs.
  exists keyword. split; [exact Hin|]. exists before, rest. reflexivity.
Qed.

Lemma goBack_pops (s : AgentSystem) (below : list AgentRole) (previous left : AgentRole) :
  stateHistory (state s) = (below ++ [previous; left])%list ->
  snd (goBack s) = true /\
  stateHistory (state (fst (goBack s))) = (below ++ [previous])%list /\
  currentRole (state (fst (goBack s))) = previous.
Proof.
  intros Hstack. unfold Agents.goBack. rewrite Hstack.
  replace (below ++ [previous; left])%list
    with ((below ++ [previous]) ++ [left])%list
    by (rewrite <- List.app_assoc; reflexivity).
  rewrite removelast_last, last_last.
  destruct (Nat.leb_spec (List.length ((below ++ [previous]) ++ [left])) 1)
    as [Hle|_].
  { rewrite !List.length_app in Hle. cbn in Hle. lia. }
  destruct previous; repeat split; reflexivity.
Qed.

Lemma goBack_clears (s : AgentSystem) (below : list AgentRole) (previous left : AgentRole) :
  stateHistory (state s) = (below ++ [previous; left])%list ->
  userProfile (state (fst (goBack s)))
  = userProfile (clearedOnReturn previous (state s)) /\
  currentDemand (state (fst (goBack s)))
  = currentDemand (clearedOnReturn previous (state s)) /\
  recommendations (state (fst (goBack s)))
  = recommendations (clearedOnReturn previous (state s)).
Proof.
  intros Hstack. unfold Agents.goBack. rewrite Hstack.
  replace (below ++ [previous; left])%list
    with ((below ++ [previous]) ++ [left])%list
    by (rewrite <- List.app_assoc; reflexivity).
  rewrite removelast_last, last_last.
  destruct (Nat.leb_spec (List.length ((below ++ [previous]) ++ [left])) 1)
    as [Hle|_].
  { rewrite !List.length_app in Hle. cbn in Hle. lia. }
  destruct previous; repeat split; reflexivity.
Qed.

(** X6. [goBack] undoes [transitionTo] for the stage, not for the data: on
    an instance whose stack ends in its current stage, entering any stage
    and going back restores the stage and the stack, while the stored
    profile, demand and recommendations are reset as on any return to that
    stage (all three for PROFILER, demand and recommendations for
    SPECIALIST). *)
Theorem goBack_undoes_transitionTo (s : AgentSystem) (newRole : AgentRole) :
  wellStacked (state s) ->
  let back := goBack (transitionTo newRole s) in
  let reset := clearedOnReturn (currentRole (state s)) (state s) in
  snd back = true /\
  currentRole (state (fst back)) = currentRole (state s) /\
  stateHistory (state (fst back)) = stateHistory (state s) /\
  userProfile (state (fst back)) = userProfile reset /\
  currentDemand (state (fst back)) = currentDemand reset /\
  recommendations (state (fst back)) = recommendations reset.
Proof.
  intros [below Hstack].
  assert (Hpushed : stateHistory (state (transitionTo newRole s))
                    = (below ++ [currentRole (state s); newRole])%list).
  { cbn. rewrite Hstack, <- List.app_assoc. reflexivity. }
  destruct (goBack_pops _ _ _ _ Hpushed) as (Hflag & Hs & Hr).
  destruct (goBack_clears _ _ _ _ Hpushed) as (Hu & Hd & Hc).
  cbv zeta. rewrite Hflag, Hs, Hr, Hu, Hd, Hc, Hstack.
  destruct (currentRole (state s)); repeat split; reflexivity.
Qed.

Lemma goBack_refuses (s : AgentSystem) (only : AgentRole) :
  stateHistory (state s) = [only] ->
  snd (goBack s) = false /\
  stateHistory (state (fst (goBack s))) = [only] /\
  currentRole (state (fst (goBack s))) = currentRole (state s).
Proof.
  intros Hstack. unfold Agents.goBack. rewrite Hstack. cbn.
  rewrite Hstack. repeat split; reflexivity.
Qed.

Lemma goBackTimes_stack (s : AgentSystem) (first : AgentRole) (rest : list AgentRole)
      (k : nat) :
  stateHistory (state s) = first :: rest ->
  k <= List.length rest ->
  stateHistory (state (goBackTimes k s))
  = firstn (S (List.length rest) - k) (first :: rest) /\
  (0 < k ->
   currentRole (state (goBackTimes k s))
   = last (firstn (S (List.length rest) - k) (first :: rest)) first).
Proof.
  intros Hstack. induction k as [|k IH]; intros Hk.
  - split; [|lia]. change (goBackTimes 0 s) with s. rewrite Hstack.
    replace (S (List.length rest) - 0) with (List.length (first :: rest))
      by (cbn; lia).
    symmetry. apply firstn_all.
  - destruct (IH ltac:(lia)) as [Hs _]. clear IH.
    change (goBackTimes (S k) s) with (fst (goBack (goBackTimes k s))).
    set (n := List.length rest - k) in *.
    replace (S (List.length rest) - k) with (S n) in Hs by lia.
    replace (S (List.length rest) - S k) with n by lia.
    assert (Hn : 0 < n) by lia.
    assert (Hlen : List.length (firstn (S n) (first :: rest)) = S n)
      by (apply firstn_length_le; cbn; lia).
    destruct (firstn (S n) (first :: rest)) as [|x xs] eqn:Hf using rev_ind;
      [cbn in Hlen; lia|]. clear IHxs.
    destruct xs as [|y ys _] using rev_ind.
    { rewrite List.length_app in Hlen. cbn in Hlen. lia. }
    assert (Hpre : firstn n (first :: rest) = (ys ++ [y])%list).
    { rewrite <- (@removelast_firstn _ n (first :: rest)) by (cbn; lia).
      rewrite Hf. apply removelast_last. }
    destruct (goBack_pops (goBackTimes k s) ys y x) as (_ & Hs' & Hr').
    { rewrite Hs, <- List.app_assoc. reflexivity. }
    rewrite Hpre. split; [exact Hs'|]. intros _. rewrite Hr', last_last.
    reflexivity.
Qed.

(** X7. Backward requests can always unwind the whole stack: from a stack
    of [n + 1] entries, [n] backward steps leave exactly its first entry,
    which is then the current stage, and the next backward step is
    refused. *)
Theorem backward_steps_reach_the_first_stage
        (s : AgentSystem) (first : AgentRole) (rest : list AgentRole) :
  stateHistory (state s) = first :: rest ->
  let s' := goBackTimes (List.length rest) s in
  stateHistory (state s') = [first] /\
  (rest <> [] -> currentRole (state s') = first) /\
  snd (goBack s') = false.
Proof.
  intros Hstack.
  destruct (goBackTimes_stack s first rest (List.length rest) Hstack (le_n _))
    as [Hs Hr].
  replace (S (List.length rest) - List.length rest) with 1 in * by lia.
  cbn in Hs, Hr. cbv zeta. split; [exact Hs|]. split.
  - intros Hne. apply Hr. destruct rest; [now destruct Hne | cbn; lia].
  - apply (goBack_refuses _ first Hs).
Qed.

Lemma processUserMessage_in_critic (s : AgentSystem) (userText : string) :
  isBackwardRequest userText = false ->
  currentRole (state s) = CRITIC ->
  processUserMessage userText s = (emit (AgentChange "Critic") s, Done Fulfilled).
Proof.
  intros Hback Hrole. unfold Agents.processUserMessage. rewrite Hback.
  cbn [onAgentChange emit state]. rewrite Hrole. reflexivity.
Qed.

Lemma ordinary_input_in_critic (texts : list string) (w : World) :
  currentRole (state (instance w)) = CRITIC ->
  Forall (fun text => isBackwardRequest text = false) texts ->
  let w' := run (map CallProcessUserMessage texts) w in
  state (instance w') = state (instance w) /\
  inFlight w' = inFlight w /\
  requestsOf (trace (instance w')) = requestsOf (trace (instance w)) /\
  published (trace (instance w')) = published (trace (instance w)) /\
  turnsSettled w' = (turnsSettled w ++ repeat Fulfilled (List.length texts))%list.
Proof.
  revert w. induction texts as [|text texts IH]; intros w Hrole Hall.
  - cbn. rewrite List.app_nil_r. repeat split; reflexivity.
  - inversion Hall as [|? ? Hback Hrest]; subst.
    cbn [map]. change (run (CallProcessUserMessage text :: ?l) w)
      with (run l (Runtime.exec PROMPTS Date_now Math_random w
                     (CallProcessUserMessage text))).
    cbn [Runtime.exec].
    rewrite (processUserMessage_in_critic _ _ Hback Hrole).
    match goal with |- context [run _ ?w1] => specialize (IH w1 Hrole Hrest) end.
    cbv zeta in IH. destruct IH as (Hs & Hf & Hq & Hpub & Ht).
    cbv zeta. rewrite Hs, Hf, Hq, Hpub, Ht. cbn.
    unfold published. rewrite !List.app_nil_r, requestsOf_app, flat_map_app,
      <- List.app_assoc. cbn.
    rewrite !List.app_nil_r. repeat split; reflexivity.
Qed.

(** X8. Stage CRITIC is a dead end, and a failed call of the compound
    transition leads into it without a word.  When the reply to the critic
    or the host call is a failure, the instance is left exactly as it was:
    nothing is published, no promise of [processUserMessage] is touched,
    only the dropped promise is rejected.  And in CRITIC, however many
    messages that are no backward requests the user sends, the state stays
    as it is, every turn is fulfilled, nothing is published and not one
    request is sent. *)
Theorem critic_stage_is_a_silent_dead_end :
  (forall (w : World) (f : Frame) (o : FetchOutcome) (t : Thrown),
      inFlight w = [f] ->
      ownedByTurn f = false ->
      callGemini_reply o = inl t ->
      let w' := Runtime.exec PROMPTS Date_now Math_random w (Deliver 0 o) in
      instance w' = instance w /\
      inFlight w' = [] /\
      turnsSettled w' = turnsSettled w /\
      droppedSettled w' = (droppedSettled w ++ [RejectedWith t])%list) /\
  (forall (texts : list string) (w : World),
      currentRole (state (instance w)) = CRITIC ->
      Forall (fun text => isBackwardRequest text = false) texts ->
      let w' := run (map CallProcessUserMessage texts) w in
      state (instance w') = state (instance w) /\
      inFlight w' = inFlight w /\
      requestsOf (trace (instance w')) = requestsOf (trace (instance w)) /\
      published (trace (instance w')) = published (trace (instance w)) /\
      turnsSettled w'
      = (turnsSettled w ++ repeat Fulfilled (List.length texts))%list).
Proof.
  split; [|exact ordinary_input_in_critic].
  intros w f o t Hf Howned Hreply. cbn [Runtime.exec]. rewrite Hf.
  cbn [nth_error]. unfold Agents.resume. rewrite Hreply.
  destruct f; try discriminate; cbn; rewrite List.app_nil_r;
    repeat split; reflexivity.
Qed.

End Navigation.

(** ** Replies and the compound transition *)

Section Replies.
Import JsString Llm Agents Runtime Spec Laws.

Variable PROMPTS : AgentRole -> string.
Variable Date_now : nat -> N.
Variable Math_random : nat -> string.

Local Abbreviation processUserMessage := (processUserMessage PROMPTS Date_now Math_random).
Local Abbreviation resume := (resume PROMPTS Date_now Math_random).
Local Abbreviation run := (run PROMPTS Date_now Math_random).
Local Abbreviation newAgentMessage := (newAgentMessage Date_now Math_random).
Local Abbreviation addAgentMessage := (addAgentMessage Date_now Math_random).

(** X9. The continuation that runs on a reply does not look at the stage
    the instance is in by then.  Whatever the current stage and stack (for
    instance after a backward step taken while the call was in flight), a
    PROFILER response with the marker pushes SPECIALIST, a SPECIALIST
    response with the marker pushes CRITIC, and a critic response pushes
    HOST and is stored as the recommendations. *)
Theorem replies_advance_whatever_the_stage
        (s : AgentSystem) (o : FetchOutcome) (response : string) :
  callGemini_reply o = inr response ->
  (forall pre post,
      first_split profileMarker response pre post ->
      let s' := after (resume InRunProfiler o s) in
      currentRole (state s') = SPECIALIST /\
      stateHistory (state s') = (stateHistory (state s) ++ [SPECIALIST])%list /\
      userProfile (state s') = trim post) /\
  (forall pre post,
      first_split demandMarker response pre post ->
      let s' := after (resume InRunSpecialist o s) in
      currentRole (state s') = CRITIC /\
      stateHistory (state s') = (stateHistory (state s) ++ [CRITIC])%list /\
      currentDemand (state s') = trim post) /\
  (let s' := after (resume InCriticStep o s) in
   currentRole (state s') = HOST /\
   stateHistory (state s') = (stateHistory (state s) ++ [HOST])%list /\
   recommendations (state s') = response).
Proof.
  intros Hreply. split; [|split].
  - intros pre post Hsplit. unfold Agents.resume. rewrite Hreply.
    cbn [settle after fst].
    rewrite (runProfiler_resume_marker Date_now Math_random _ _ _ _ Hsplit).
    repeat split; reflexivity.
  - intros pre post Hsplit. unfold Agents.resume. rewrite Hreply.
    rewrite (runSpecialist_resume_marker PROMPTS Date_now Math_random _ _ _ _ Hsplit).
    unfold runCriticAndHost_begin, beginCall.
    destruct (callGemini_request _ _ _ _); cbn; repeat split; reflexivity.
  - unfold Agents.resume. rewrite Hreply.
    unfold runCriticAndHost_afterCritic, beginCall.
    destruct (callGemini_request _ _ _ _); cbn; repeat split; reflexivity.
Qed.

(** X10. The compound transition, reply by reply.  From SPECIALIST with
    nothing in flight, a response with the marker followed by a critic and
    a host response makes the instance announce "Genre Specialist", "Critic
    Agent" and "Host Agent" in turn, each before the request of that step,
    publish the specialist's reply after the first request and the host's
    presentation after the third, keep the critic's response as the
    recommendations and the host's response as the message, both untouched,
    and end in HOST with nothing in flight. *)
Theorem compound_transition_unfolds_in_order
        (w : World) (userText response pre post recs presentation : string)
        (o1 o2 o3 : FetchOutcome) :
  inFlight w = [] ->
  isBackwardRequest userText = false ->
  credentialMissing (apiKey (instance w)) = false ->
  currentRole (state (instance w)) = SPECIALIST ->
  callGemini_reply o1 = inr response ->
  first_split demandMarker response pre post ->
  callGemini_reply o2 = inr recs ->
  callGemini_reply o3 = inr presentation ->
  let s := instance w in
  let w' := run [ CallProcessUserMessage userText;
                  Deliver 0 o1; Deliver 0 o2; Deliver 0 o3 ] w in
  let reply := newAgentMessage (built s) "Genre Specialist" (trim pre) in
  let shown := newAgentMessage (S (built s)) "Host" presentation in
  exists r1 r2 r3,
    trace (instance w')
    = (trace s ++
       [ AgentChange "Genre Specialist"; Fetch r1; MessageUpdate [reply];
         AgentChange "Critic Agent"; Fetch r2;
         AgentChange "Host Agent"; Fetch r3; MessageUpdate [shown] ])%list /\
    promptOf r2 = [criticPrompt (userProfile (state s)) (trim post)] /\
    promptOf r3 = [hostPrompt recs (userProfile (state s)) (trim post)] /\
    history (state (instance w')) = (history (state s) ++ [reply; shown])%list /\
    recommendations (state (instance w')) = recs /\
    currentRole (state (instance w')) = HOST /\
    stateHistory (state (instance w'))
    = (stateHistory (state s) ++ [CRITIC; HOST])%list /\
    inFlight w' = [].
Proof.
  intros Hidle Hback Hkey Hrole Ho1 Hsplit Ho2 Ho3.
  destruct (processUserMessage_suspends PROMPTS Date_now Math_random
              _ userText InRunSpecialist Hback Hkey)
    as [req Hp]; [rewrite Hrole; reflexivity|].
  rewrite Hrole in Hp.
  cbv zeta.
  rewrite (run_cons PROMPTS Date_now Math_random). cbn [Runtime.exec].
  rewrite Hp, Hidle. clear Hp. cbn [waitingOf app].
  rewrite (run_cons PROMPTS Date_now Math_random).
  cbn [Runtime.exec inFlight nth_error instance].
  unfold Agents.resume. rewrite Ho1.
  rewrite (runSpecialist_resume_marker PROMPTS Date_now Math_random _ _ _ _ Hsplit).
  unfold runCriticAndHost_begin, beginCall.
  cbn [emit apiKey model onAgentChange transitionTo withState
       Agents.addAgentMessage].
  rewrite callGemini_request_sends by exact Hkey.
  cbn [after outcome floating removeNth waitingOf app].
  rewrite (run_cons PROMPTS Date_now Math_random).
  cbn [Runtime.exec inFlight nth_error instance].
  unfold Agents.resume. rewrite Ho2.
  unfold runCriticAndHost_afterCritic, beginCall.
  cbn [emit apiKey model onAgentChange transitionTo withState].
  rewrite callGemini_request_sends by exact Hkey.
  cbn [settle fst snd after outcome floating removeNth waitingOf app].
  rewrite (run_cons PROMPTS Date_now Math_random).
  cbn [Runtime.exec inFlight nth_error instance].
  unfold Agents.resume. rewrite Ho3.
  cbn. rewrite <- !List.app_assoc. cbn.
  eexists _, _, _. repeat split; reflexivity.
Qed.

End Replies.

(** ** What [trim] keeps *)

Section StripLaws.
Import JsString.

Variable w1 : ascii -> bool.
Variable w2 : ascii -> ascii -> bool.
Variable w3 : ascii -> ascii -> ascii -> bool.

Lemma strip_length (s : string) :
  String.length (strip w1 w2 w3 s) <= String.length s.
Proof.
  destruct (strip_split w1 w2 w3 s) as (b & Hb & _).
  rewrite Hb at 2. rewrite length_append. lia.
Qed.

(** A string [strip] returns as it is has no recognised head, and neither
    has any prefix of it. *)
Lemma strip_fixed_prefix (a b : string) :
  strip w1 w2 w3 (a ++ b) = a ++ b -> strip w1 w2 w3 a = a.
Proof.
  destruct a as [|c1 a1]; [reflexivity|]. cbn [append strip].
  destruct (w1 c1).
  { intros H. pose proof (strip_length (a1 ++ b)) as L.
    rewrite H in L. cbn in L. lia. }
  destruct a1 as [|c2 a2]; [reflexivity|]. cbn [append].
  destruct (w2 c1 c2).
  { intros H. pose proof (strip_length (a2 ++ b)) as L.
    rewrite H in L. cbn in L. lia. }
  destruct a2 as [|c3 a3]; [reflexivity|]. cbn [append].
  destruct (w3 c1 c2 c3); [|reflexivity].
  intros H. pose proof (strip_length (a3 ++ b)) as L.
  rewrite H in L. cbn in L. lia.
Qed.

Lemma strip_idempotent_bounded (n : nat) (s : string) :
  String.length s <= n ->
  strip w1 w2 w3 (strip w1 w2 w3 s) = strip w1 w2 w3 s.
Proof.
  revert s. induction n as [|n IH]; intros s Hn.
  - destruct s; [reflexivity | cbn in Hn; lia].
  - destruct s as [|c1 s1]; [reflexivity|]. cbn in Hn. cbn [strip].
    destruct (w1 c1) eqn:H1; [apply IH; lia|].
    destruct s1 as [|c2 s2]; [cbn; rewrite H1; reflexivity|]. cbn in Hn.
    destruct (w2 c1 c2) eqn:H2; [apply IH; lia|].
    destruct s2 as [|c3 s3]; [cbn; rewrite H1, H2; reflexivity|]. cbn in Hn.
    destruct (w3 c1 c2 c3) eqn:H3; [apply IH; lia|].
    cbn. rewrite H1, H2, H3. reflexivity.
Qed.

Lemma strip_idempotent (s : string) :
  strip w1 w2 w3 (strip w1 w2 w3 s) = strip w1 w2 w3 s.
Proof. apply (strip_idempotent_bounded (String.length s)). lia. Qed.

End StripLaws.

Section TrimLaws.
Import JsString.

(** [trim] only takes white space away, and only from the two ends. *)
Lemma trim_margins (s : string) :
  exists b1 b2, s = b1 ++ trim s ++ b2 /\ Blank b1 /\ Blank b2.
Proof.
  unfold trim, trimStart, trimEnd.
  destruct (strip_split ws1 (flip2 ws2) (flip3 ws3) (rev s)) as (b & Hb & Bb).
  set (e := strip ws1 (flip2 ws2) (flip3 ws3) (rev s)) in *.
  destruct (strip_split ws1 ws2 ws3 (rev e)) as (b1 & Hb1 & Bb1).
  exists b1, (rev b). split; [|split; [exact Bb1 | apply BlankBy_unrev, Bb]].
  rewrite <- (rev_involutive s) at 1. rewrite Hb, rev_app, Hb1 at 1.
  apply append_assoc.
Qed.

Lemma trim_idempotent (s : string) : trim (trim s) = trim s.
Proof.
  unfold trim, trimStart, trimEnd.
  set (e := strip ws1 (flip2 ws2) (flip3 ws3) (rev s)).
  set (x := strip ws1 ws2 ws3 (rev e)).
  destruct (strip_split ws1 ws2 ws3 (rev e)) as (b1 & Hb1 & _).
  fold x in Hb1.
  assert (He : strip ws1 (flip2 ws2) (flip3 ws3) (rev x ++ rev b1) = rev x ++ rev b1).
  { rewrite <- rev_app, <- Hb1, rev_involutive. apply strip_idempotent. }
  apply strip_fixed_prefix in He. rewrite He, rev_involutive.
  apply strip_idempotent.
Qed.

(** A string that [trim] leaves non-empty is not white space. *)
Lemma trim_not_blank (s : string) : trim s <> EmptyString -> ~ Blank (trim s).
Proof.
  intros Hne Hb. apply Hne. rewrite <- trim_idempotent.
  apply trim_empty_iff_blank, Hb.
Qed.

Lemma first_split_no_earlier (m s pre post : string) :
  m <> EmptyString -> first_split m s pre post -> ~ occurs m pre.
Proof.
  intros Hm [Hs Hf] (a & b & Hpre).
  assert (Hk : String.length a < String.length pre).
  { rewrite Hpre, !length_append. destruct m; [now destruct Hm | cbn; lia]. }
  specialize (Hf _ Hk).
  rewrite Hs, Hpre, !append_assoc, drop_app, startsWith_app in Hf.
  discriminate.
Qed.

Lemma occurs_in_trim (m s : string) : occurs m (trim s) -> occurs m s.
Proof.
  intros H. destruct (trim_margins s) as (b1 & b2 & Hs & _).
  rewrite Hs. apply occurs_app_r, occurs_app_l, H.
Qed.

End TrimLaws.

(** ** Markers, payloads and the context window *)

Section MarkerLaws.
Import JsString Llm Agents Runtime Spec Laws.

Variable PROMPTS : AgentRole -> string.
Variable Date_now : nat -> N.
Variable Math_random : nat -> string.

Local Abbreviation processUserMessage := (processUserMessage PROMPTS Date_now Math_random).
Local Abbreviation resume := (resume PROMPTS Date_now Math_random).
Local Abbreviation newAgentMessage := (newAgentMessage Date_now Math_random).

Lemma not_occurs_not_includes (m s : string) : ~ occurs m s -> includes m s = false.
Proof.
  intros H. destruct (includes m s) eqn:E; [|reflexivity].
  destruct H. apply includes_occurs, E.
Qed.

Lemma marker_absent_before_first (m response pre post : string) :
  m <> EmptyString -> first_split m response pre post ->
  includes m (trim pre) = false.
Proof.
  intros Hm Hsplit. apply not_occurs_not_includes. intros H.
  apply (first_split_no_earlier _ _ _ _ Hm Hsplit), occurs_in_trim, H.
Qed.

(** What the two marker branches leave behind, for any instance. *)
Lemma marker_branches (s : AgentSystem) (o : FetchOutcome) (response : string) :
  callGemini_reply o = inr response ->
  (includes profileMarker response = true ->
   exists pre post,
     first_split profileMarker response pre post /\
     history (state (after (resume InRunProfiler o s)))
     = (history (state s)
        ++ [newAgentMessage (built s) "Profiler" (trim pre)])%list /\
     userProfile (state (after (resume InRunProfiler o s))) = trim post) /\
  (includes demandMarker response = true ->
   exists pre post,
     first_split demandMarker response pre post /\
     history (state (after (resume InRunSpecialist o s)))
     = (history (state s)
        ++ [newAgentMessage (built s) "Genre Specialist" (trim pre)])%list /\
     currentDemand (state (after (resume InRunSpecialist o s))) = trim post).
Proof.
  intros Hreply. split; intros Hinc;
    destruct (includes_first_split _ _ Hinc) as (pre & post & Hsplit);
    exists pre, post; (split; [exact Hsplit|]);
    unfold Agents.resume; rewrite Hreply.
  - cbn [settle after fst].
    rewrite (runProfiler_resume_marker Date_now Math_random _ _ _ _ Hsplit).
    split; reflexivity.
  - rewrite (runSpecialist_resume_marker PROMPTS Date_now Math_random _ _ _ _ Hsplit).
    unfold runCriticAndHost_begin, beginCall.
    destruct (callGemini_request _ _ _ _); cbn; split; reflexivity.
Qed.

(** X11. The completion marker never shows in the reply: when the response
    of PROFILER or SPECIALIST holds the stage's marker, the one message
    appended for it does not contain that marker. *)
Theorem reply_never_shows_the_marker
        (s : AgentSystem) (o : FetchOutcome) (response : string) :
  callGemini_reply o = inr response ->
  (includes profileMarker response = true ->
   exists reply,
     history (state (after (resume InRunProfiler o s)))
     = (history (state s) ++ [reply])%list /\
     includes profileMarker (content reply) = false) /\
  (includes demandMarker response = true ->
   exists reply,
     history (state (after (resume InRunSpecialist o s)))
     = (history (state s) ++ [reply])%list /\
     includes demandMarker (content reply) = false).
Proof.
  intros Hreply. destruct (marker_branches s o response Hreply) as [Hp Hd].
  split; intros Hinc.
  - destruct (Hp Hinc) as (pre & post & Hsplit & Hh & _).
    eexists. split; [exact Hh|]. cbn [content Agents.newAgentMessage].
    apply (marker_absent_before_first profileMarker response pre post);
      [discriminate | exact Hsplit].
  - destruct (Hd Hinc) as (pre & post & Hsplit & Hh & _).
    eexists. split; [exact Hh|]. cbn [content Agents.newAgentMessage].
    apply (marker_absent_before_first demandMarker response pre post);
      [discriminate | exact Hsplit].
Qed.

(** X12. What a marker response leaves is trimmed for good: the stored
    profile, the stored demand and the reply appended with them neither
    begin nor end with white space, so that trimming them again changes
    nothing. *)
Theorem payload_and_reply_are_trimmed
        (s : AgentSystem) (o : FetchOutcome) (response : string) :
  callGemini_reply o = inr response ->
  (includes profileMarker response = true ->
   let s' := after (resume InRunProfiler o s) in
   trim (userProfile (state s')) = userProfile (state s') /\
   exists reply,
     history (state s') = (history (state s) ++ [reply])%list /\
     trim (content reply) = content reply) /\
  (includes demandMarker response = true ->
   let s' := after (resume InRunSpecialist o s) in
   trim (currentDemand (state s')) = currentDemand (state s') /\
   exists reply,
     history (state s') = (history (state s) ++ [reply])%list /\
     trim (content reply) = content reply).
Proof.
  intros Hreply. destruct (marker_branches s o response Hreply) as [Hp Hd].
  split; intros Hinc; cbv zeta.
  - destruct (Hp Hinc) as (pre & post & _ & Hh & Hu).
    rewrite Hu. split; [apply trim_idempotent|].
    eexists. split; [exact Hh | apply trim_idempotent].
  - destruct (Hd Hinc) as (pre & post & _ & Hh & Hu).
    rewrite Hu. split; [apply trim_idempotent|].
    eexists. split; [exact Hh | apply trim_idempotent].
Qed.

Lemma sliceLast_window_app {A : Type} (n : nat) (older window : list A) :
  n <> 0 -> List.length window = n -> sliceLast n (older ++ window) = window.
Proof.
  intros Hn Hlen. unfold sliceLast.
  destruct (Nat.eqb_spec n 0) as [->|_]; [now destruct Hn|].
  rewrite List.length_app, Hlen.
  replace (List.length older + n - n) with (List.length older) by lia.
  induction older as [|x older IH]; [reflexivity | exact IH].
Qed.

Lemma buildContext_window (s : AgentSystem) (older window : list Message) :
  List.length window = 5 ->
  buildContext 5 (setHistory (older ++ window) s)
  = joinLines
      (map (fun v => roleName (fst v) ++ ": " ++ snd v) (map contextView window)).
Proof.
  intros Hlen. unfold buildContext. cbn [setHistory withState setHistoryField
                                        state history].
  rewrite sliceLast_window_app by (try discriminate; exact Hlen).
  rewrite map_map. reflexivity.
Qed.

(** X13. Only the role and the content of the last five messages reach a
    prompt.  Two histories whose last five entries agree on role and
    content make [processUserMessage] send the same request, whatever
    older entries they hold and whatever the ids, agent names and
    timestamps are. *)
Theorem prompt_reads_last_five_messages_only
        (s : AgentSystem) (userText : string)
        (older older' window window' : list Message) :
  List.length window = 5 ->
  map contextView window = map contextView window' ->
  requestsOf
    (trace (fst (processUserMessage userText (setHistory (older ++ window) s))))
  = requestsOf
      (trace (fst (processUserMessage userText (setHistory (older' ++ window') s)))).
Proof.
  intros Hlen Hview.
  assert (Hlen' : List.length window' = 5).
  { rewrite <- Hlen, <- (List.length_map contextView window), Hview.
    symmetry. apply List.length_map. }
  assert (Hctx : forall label,
             buildContext 5 (onAgentChange label (setHistory (older ++ window) s))
             = buildContext 5 (onAgentChange label (setHistory (older' ++ window') s))).
  { intros label.
    change (buildContext 5 (onAgentChange label (setHistory (older ++ window) s)))
      with (buildContext 5 (setHistory (older ++ window) s)).
    change (buildContext 5 (onAgentChange label (setHistory (older' ++ window') s)))
      with (buildContext 5 (setHistory (older' ++ window') s)).
    rewrite !buildContext_window by assumption. rewrite Hview. reflexivity. }
  unfold Agents.processUserMessage.
  destruct (isBackwardRequest userText).
  - unfold Agents.goBack. cbn [fst setHistory withState setHistoryField state
                               stateHistory currentRole].
    destruct (List.length (stateHistory (state s)) <=? 1)%nat.
    + cbn. rewrite !requestsOf_app. reflexivity.
    + destruct (last _ _); cbn; rewrite ?requestsOf_app; reflexivity.
  - change (currentRole (state (onAgentChange
              (getAgentName (currentRole (state (setHistory (older ++ window) s))))
              (setHistory (older ++ window) s))))
      with (currentRole (state s)).
    change (currentRole (state (onAgentChange
              (getAgentName (currentRole (state (setHistory (older' ++ window') s))))
              (setHistory (older' ++ window') s))))
      with (currentRole (state s)).
    change (currentRole (state (setHistory (older ++ window) s)))
      with (currentRole (state s)).
    change (currentRole (state (setHistory (older' ++ window') s)))
      with (currentRole (state s)).
    destruct (currentRole (state s));
      unfold runProfiler_begin, runSpecialist_begin, runHost_begin, beginCall;
      rewrite ?Hctx;
      try (destruct (credentialMissing (apiKey s)) eqn:Hkey;
           [ rewrite !callGemini_request_refuses by exact Hkey
           | rewrite !callGemini_request_sends by exact Hkey ]);
      reflexivity.
Qed.

End MarkerLaws.

(** ** More on the client *)

Section ClientLaws.
Import JsString Llm Agents Runtime Spec Laws.

Variable net : Request -> FetchOutcome.
Variables key mdl prompt : string.
Variable instruction : option string.

Local Abbreviation sent := (fst (callGemini net key mdl prompt instruction)).
Local Abbreviation result := (snd (callGemini net key mdl prompt instruction)).

(** X14. [callGemini] returns a text only from a success reply: when it is
    fulfilled the credential was usable, exactly one request went out, its
    reply had a success status and a readable JSON body with at least one
    candidate, and the text returned is the text of the first part of the
    first candidate; no other candidate, part or reply is ever returned. *)
Theorem callGemini_returns_first_candidate_text_only (text : string) :
  result = inr text ->
  credentialMissing key = false /\
  exists req r data first others content part parts,
    sent = [req] /\
    net req = FetchFulfilled r /\
    ok r = true /\
    readJson r = inr data /\
    candidates data = Some (first :: others) /\
    candContent first = Some content /\
    candParts content = Some (part :: parts) /\
    text = partText part.
Proof.
  unfold callGemini, callGemini_request.
  destruct (credentialMissing key); cbn [fst snd]; [discriminate|].
  intros H. split; [reflexivity|]. revert H.
  unfold callGemini_reply, tryBlock.
  destruct (net _) as [t|r] eqn:Hnet; [discriminate|].
  destruct (ok r) eqn:Hok; cbn [negb];
    [|destruct (readText r); discriminate].
  destruct (readJson r) as [t|data] eqn:Hjson; [discriminate|].
  destruct (candidates data) as [[|first others]|] eqn:Hc; try discriminate.
  unfold firstCandidateText.
  destruct (candContent first) as [content|] eqn:Hcontent; [|discriminate].
  destruct (candParts content) as [[|part parts]|] eqn:Hparts; try discriminate.
  intros [= <-].
  eexists _, r, data, first, others, content, part, parts.
  repeat split; try eassumption; reflexivity.
Qed.

(** X15. A first candidate that carries no text gets past the check for
    candidates and fails in the property read instead: with a usable
    credential and a success reply whose first candidate has no content, no
    parts or an empty list of parts, [callGemini] is rejected with a
    [TypeError], not with the "No candidates" error. *)
Theorem candidate_without_text_fails_with_TypeError
        (req : Request) (r : Response) (data : ResponseData)
        (first : Candidate) (others : list Candidate) :
  sent = [req] ->
  net req = FetchFulfilled r ->
  ok r = true ->
  readJson r = inr data ->
  candidates data = Some (first :: others) ->
  (candContent first = None \/
   exists content,
     candContent first = Some content /\
     (candParts content = None \/ candParts content = Some [])) ->
  exists e,
    result = inl (ThrownError e) /\
    errName e = "TypeError" /\
    e <> noCandidatesError.
Proof.
  unfold callGemini, callGemini_request.
  destruct (credentialMissing key); cbn [fst snd]; [discriminate|].
  intros [= <-] Hnet Hok Hjson Hc Hmissing.
  unfold callGemini_reply, tryBlock. rewrite Hnet, Hok, Hjson, Hc. cbn [negb].
  unfold firstCandidateText.
  destruct Hmissing as [-> | (content & -> & [-> | ->])]; cbn;
    eexists; (split; [reflexivity|]); (split; [reflexivity|]); discriminate.
Qed.

End ClientLaws.

(** ** The page *)

Section PageLaws.
Import JsString Llm Agents Runtime Spec Laws Page.

(** Whether the list already holds the [id] of [m]. *)
Lemma known_id_spec (m : Message) (h : list Message) :
  existsb (String.eqb (id m)) (map id h) = true <-> In (id m) (map id h).
Proof.
  rewrite existsb_exists. split.
  - intros (x & Hin & Heq). apply String.eqb_eq in Heq. now subst.
  - intros Hin. exists (id m). split; [exact Hin | apply String.eqb_refl].
Qed.

Lemma mergeMessages_app (h n : list Message) :
  mergeMessages h n
  = (h ++ filter (fun m => negb (existsb (String.eqb (id m)) (map id h))) n)%list.
Proof.
  unfold mergeMessages.
  destruct (filter _ n); [now rewrite List.app_nil_r | reflexivity].
Qed.

Lemma NoDup_map_filter {A B : Type} (g : A -> B) (p : A -> bool) (l : list A) :
  NoDup (map g l) -> NoDup (map g (filter p l)).
Proof.
  induction l as [|x l IH]; cbn; [exact (fun H => H)|].
  intros H. inversion H as [|? ? Hnotin Hrest]; subst.
  destruct (p x); [|exact (IH Hrest)].
  cbn. constructor; [|exact (IH Hrest)].
  intros Hin. apply Hnotin. apply in_map_iff in Hin.
  destruct Hin as (y & Hy & Hin). apply filter_In in Hin.
  apply in_map_iff. exists y. split; [exact Hy | apply Hin].
Qed.

Lemma filter_none {A : Type} (p : A -> bool) (l : list A) :
  (forall x, In x l -> p x = false) -> filter p l = [].
Proof.
  induction l as [|x l IH]; intros H; [reflexivity|]. cbn.
  rewrite (H x) by (left; reflexivity). apply IH.
  intros y Hy. apply H. right. exact Hy.
Qed.

(** X16. The merge of a published batch into the page's list only appends:
    the list it had stays a prefix, what is appended are the messages of
    the batch whose [id] the list did not hold, and afterwards the list
    holds the [id] of every message of the batch.  Merging the same batch a
    second time changes nothing, and lists without repeated ids stay
    without. *)
Theorem mergeMessages_appends_new_ids_once (h n : list Message) :
  (exists added,
      mergeMessages h n = (h ++ added)%list /\
      forall m, In m added <-> In m n /\ ~ In (id m) (map id h)) /\
  (forall m, In m n -> In (id m) (map id (mergeMessages h n))) /\
  mergeMessages (mergeMessages h n) n = mergeMessages h n /\
  (NoDup (map id h) -> NoDup (map id n) -> NoDup (map id (mergeMessages h n))).
Proof.
  set (fresh := fun m : Message => negb (existsb (String.eqb (id m)) (map id h))).
  assert (Hfresh : forall m, fresh m = true <-> ~ In (id m) (map id h)).
  { intros m. unfold fresh. rewrite negb_true_iff, <- not_true_iff_false.
    rewrite known_id_spec. reflexivity. }
  assert (Hall : forall m, In m n -> In (id m) (map id (mergeMessages h n))).
  { intros m Hin. rewrite mergeMessages_app, map_app, in_app_iff.
    destruct (fresh m) eqn:E.
    - right. apply in_map, filter_In. split; assumption.
    - left. apply known_id_spec. unfold fresh in E.
      apply negb_false_iff in E. exact E. }
  split; [|split; [exact Hall|split]].
  - exists (filter fresh n). split; [apply mergeMessages_app|].
    intros m. rewrite filter_In, Hfresh. reflexivity.
  - rewrite (mergeMessages_app (mergeMessages h n) n).
    rewrite filter_none; [apply List.app_nil_r|].
    intros m Hin. apply negb_false_iff, known_id_spec, Hall, Hin.
  - intros Hh Hn. rewrite mergeMessages_app, map_app.
    apply NoDup_app; [exact Hh | apply NoDup_map_filter, Hn |].
    intros x Hx Hx'. apply in_map_iff in Hx'.
    destruct Hx' as (m & <- & Hm). apply filter_In in Hm.
    destruct Hm as [_ Hm]. apply Hfresh in Hm. exact (Hm Hx).
Qed.

End PageLaws.

Section SettingsLaws.
Import JsString Llm Agents Page.

Lemma trimmed_key_is_usable (localKey : string) :
  trim localKey <> EmptyString -> credentialMissing (trim localKey) = false.
Proof.
  intros Hne. unfold credentialMissing. rewrite trim_idempotent.
  destruct (String.eqb_spec (trim localKey) EmptyString) as [E|_];
    [now destruct Hne | reflexivity].
Qed.

(** X17. The settings dialog never saves a credential the client would
    refuse: whatever [handleSave] saves is the trimmed key and the trimmed
    model, the key passes the credential check of [callGemini], the model
    is not empty, and a key that does not start with "AIza" was confirmed.
    A key of white space only is turned down with the API-key error
    without asking, and a trimmed key starting with "AIza" is saved
    without asking as soon as a model is given. *)
Theorem settings_save_only_usable_credentials
        (localKey localModel : string) (confirmed : bool) :
  (forall key mdl,
      handleSave localKey localModel confirmed = Saved key mdl ->
      key = trim localKey /\ mdl = trim localModel /\
      credentialMissing key = false /\ mdl <> EmptyString /\
      (startsWith "AIza" key = true \/ confirmed = true)) /\
  (Blank localKey ->
   handleSave localKey localModel confirmed = ShowError "请输入 API Key") /\
  (startsWith "AIza" (trim localKey) = true ->
   trim localModel <> EmptyString ->
   handleSave localKey localModel confirmed
   = Saved (trim localKey) (trim localModel)).
Proof.
  unfold handleSave. split; [|split].
  - intros key mdl.
    destruct (String.eqb_spec (trim localKey) EmptyString) as [_|Hk];
      [discriminate|].
    destruct (String.eqb_spec (trim localModel) EmptyString) as [_|Hm];
      [discriminate|].
    destruct (startsWith "AIza" (trim localKey)) eqn:Hs; cbn [negb andb].
    + intros [= <- <-]. repeat split; try assumption.
      * apply trimmed_key_is_usable, Hk.
      * left. exact Hs.
    + destruct confirmed; cbn [negb]; [|discriminate].
      intros [= <- <-]. repeat split; try assumption.
      * apply trimmed_key_is_usable, Hk.
      * right. reflexivity.
  - intros Hblank. apply trim_empty_iff_blank in Hblank. rewrite Hblank.
    reflexivity.
  - intros Hs Hm. rewrite Hs. cbn [negb andb].
    destruct (String.eqb_spec (trim localKey) EmptyString) as [E|_].
    { rewrite E in Hs. discriminate. }
    destruct (String.eqb_spec (trim localModel) EmptyString) as [E|_];
      [now destruct Hm | reflexivity].
Qed.

End SettingsLaws.

(** ** The laws at concrete inputs *)

Section LawInstances.
Import JsString Llm Agents Runtime Spec Laws Page Sample Cases.

Local Abbreviation processUserMessage := (processUserMessage prompts clock random).
Local Abbreviation resume := (resume prompts clock random).
Local Abbreviation run := (run prompts clock random).
Local Abbreviation exec := (exec prompts clock random).
Local Abbreviation goBack := (goBack clock random).
Local Abbreviation goBackTimes := (goBackTimes clock random).

Lemma history_grows_by_what_is_published_at_first_turn :
  (forall h, CallProcessUserMessage "hi" <> CallSetHistory h) /\
  exists added,
    history (state (instance (exec opened (CallProcessUserMessage "hi"))))
    = (history (state (instance opened)) ++ published added)%list.
Proof.
  assert (H : forall h, CallProcessUserMessage "hi" <> CallSetHistory h)
    by (intros h; discriminate).
  split; [exact H|].
  destruct (history_grows_by_what_is_published prompts clock random
              opened (CallProcessUserMessage "hi") H) as (added & _ & Hh & _).
  exists added. exact Hh.
Defined.

Lemma every_request_is_well_formed_at_first_turn :
  In (Fetch firstRequest)
     (trace (instance (run [CallProcessUserMessage "hi"] (boot key mdl)))) /\
  credentialMissing key = false /\
  wellFormedRequest key mdl firstRequest.
Proof.
  assert (H : In (Fetch firstRequest)
                 (trace (instance (run [CallProcessUserMessage "hi"] (boot key mdl)))))
    by (vm_compute; right; left; reflexivity).
  split; [exact H|].
  exact (every_request_is_well_formed prompts clock random
           key mdl [CallProcessUserMessage "hi"] firstRequest H).
Defined.

Lemma serialized_use_keeps_one_request_in_flight_in_compound_turn :
  let actions := [ CallProcessUserMessage "想看科幻";
                   Deliver 0 (okReply demandResponse);
                   Deliver 0 (okReply "[Inception]");
                   Deliver 0 (okReply "enjoy") ] in
  List.length (inFlight atSpecialist) <= 1 /\
  serialized prompts clock random actions atSpecialist = true /\
  List.length (inFlight (run actions atSpecialist)) <= 1.
Proof.
  cbv zeta.
  assert (H1 : List.length (inFlight atSpecialist) <= 1) by (vm_compute; lia).
  split; [exact H1|]. split; [vm_compute; reflexivity|].
  apply (serialized_use_keeps_one_request_in_flight prompts clock random);
    [exact H1 | vm_compute; reflexivity].
Defined.

Lemma message_with_keyword_never_reaches_the_model_without_credential :
  In "返回" backwardKeywords /\
  credentialMissing (apiKey unconfigured) = true /\
  snd (processUserMessage ("请" ++ "返回" ++ "吧") unconfigured) = Done Fulfilled.
Proof.
  assert (H : In "返回" backwardKeywords) by (left; reflexivity).
  split; [exact H|]. split; [vm_compute; reflexivity|].
  destruct (message_with_keyword_never_reaches_the_model prompts clock random
              unconfigured "请" "返回" "吧" H) as [Hdone _].
  exact Hdone.
Defined.

Lemma goBack_undoes_transitionTo_at_start :
  wellStacked (state fresh) /\
  stateHistory (state (fst (goBack (transitionTo SPECIALIST fresh)))) = [PROFILER].
Proof.
  assert (H : wellStacked (state fresh)) by (exists []; reflexivity).
  split; [exact H|].
  destruct (goBack_undoes_transitionTo clock random fresh SPECIALIST H)
    as (_ & _ & Hs & _).
  rewrite Hs. reflexivity.
Defined.

Lemma backward_steps_reach_the_first_stage_from_host :
  stateHistory (state (instance atHost)) = [PROFILER; SPECIALIST; CRITIC; HOST] /\
  stateHistory (state (goBackTimes 3 (instance atHost))) = [PROFILER].
Proof.
  assert (H : stateHistory (state (instance atHost))
              = PROFILER :: [SPECIALIST; CRITIC; HOST])
    by (vm_compute; reflexivity).
  split; [exact H|].
  destruct (backward_steps_reach_the_first_stage clock random
              (instance atHost) PROFILER [SPECIALIST; CRITIC; HOST] H)
    as (Hs & _).
  exact Hs.
Defined.

Lemma critic_stage_is_a_silent_dead_end_when_stranded :
  inFlight criticPending = [InCriticStep] /\
  callGemini_reply unavailable
  = inl (ThrownError (newError "API Error 503: Service Unavailable. overloaded")) /\
  instance stranded = instance criticPending /\
  currentRole (state (instance stranded)) = CRITIC /\
  Forall (fun text => isBackwardRequest text = false) ["hello"; "anyone?"] /\
  state (instance (run (map CallProcessUserMessage ["hello"; "anyone?"]) stranded))
  = state (instance stranded).
Proof.
  assert (H0 : inFlight criticPending = [InCriticStep]) by (vm_compute; reflexivity).
  assert (Hr : callGemini_reply unavailable
               = inl (ThrownError
                        (newError "API Error 503: Service Unavailable. overloaded")))
    by (vm_compute; reflexivity).
  assert (H1 : currentRole (state (instance stranded)) = CRITIC)
    by (vm_compute; reflexivity).
  assert (H2 : Forall (fun text => isBackwardRequest text = false)
                      ["hello"; "anyone?"])
    by (repeat constructor).
  destruct (critic_stage_is_a_silent_dead_end prompts clock random) as [Hfail Hdead].
  destruct (Hfail criticPending InCriticStep unavailable _ H0 eq_refl Hr)
    as (Hi & _).
  destruct (Hdead ["hello"; "anyone?"] stranded H1 H2) as (Hs & _).
  split; [exact H0|]. split; [exact Hr|]. split; [exact Hi|].
  split; [exact H1|]. split; [exact H2 | exact Hs].
Defined.

Lemma replies_advance_whatever_the_stage_after_backing_out :
  currentRole (state (instance backedOut)) = SPECIALIST /\
  callGemini_reply (okReply "[Inception]") = inr "[Inception]" /\
  stateHistory
    (state (after (resume InCriticStep (okReply "[Inception]") (instance backedOut))))
  = [PROFILER; SPECIALIST; HOST].
Proof.
  split; [vm_compute; reflexivity|]. split; [reflexivity|].
  destruct (replies_advance_whatever_the_stage prompts clock random
              (instance backedOut) (okReply "[Inception]") "[Inception]" eq_refl)
    as (_ & _ & _ & Hs & _).
  rewrite Hs. vm_compute. reflexivity.
Defined.

Lemma compound_transition_unfolds_in_order_at_specialist :
  first_split demandMarker demandResponse "明白 " " 科幻片" /\
  currentRole
    (state (instance
              (run [ CallProcessUserMessage "想看科幻";
                     Deliver 0 (okReply demandResponse);
                     Deliver 0 (okReply "[Inception]");
                     Deliver 0 (okReply "enjoy") ] atSpecialist)))
  = HOST.
Proof.
  assert (Hsplit : first_split demandMarker demandResponse "明白 " " 科幻片")
    by (apply first_split_by_index; vm_compute; reflexivity).
  split; [exact Hsplit|].
  destruct (compound_transition_unfolds_in_order prompts clock random
              atSpecialist "想看科幻" demandResponse "明白 " " 科幻片"
              "[Inception]" "enjoy"
              (okReply demandResponse) (okReply "[Inception]") (okReply "enjoy")
              ltac:(vm_compute; reflexivity)
              ltac:(vm_compute; reflexivity)
              ltac:(vm_compute; reflexivity)
              ltac:(vm_compute; reflexivity)
              eq_refl Hsplit eq_refl eq_refl)
    as (r1 & r2 & r3 & _ & _ & _ & _ & _ & Hrole & _).
  exact Hrole.
Defined.

Lemma reply_never_shows_the_marker_at_profiler :
  includes profileMarker "ok ||PROFILE_READY|| a" = true /\
  exists reply,
    history (state (after (resume InRunProfiler
                             (okReply "ok ||PROFILE_READY|| a") fresh)))
    = [reply] /\
    includes profileMarker (content reply) = false.
Proof.
  assert (H : includes profileMarker "ok ||PROFILE_READY|| a" = true)
    by (vm_compute; reflexivity).
  split; [exact H|].
  destruct (reply_never_shows_the_marker prompts clock random fresh
              (okReply "ok ||PROFILE_READY|| a") "ok ||PROFILE_READY|| a" eq_refl)
    as [Hp _].
  destruct (Hp H) as (reply & Hh & Hm).
  exists reply. split; [exact Hh | exact Hm].
Defined.

Lemma payload_and_reply_are_trimmed_at_profiler :
  includes profileMarker "ok ||PROFILE_READY|| a" = true /\
  trim (userProfile
          (state (after (resume InRunProfiler
                           (okReply "ok ||PROFILE_READY|| a") fresh))))
  = userProfile
      (state (after (resume InRunProfiler
                       (okReply "ok ||PROFILE_READY|| a") fresh))).
Proof.
  assert (H : includes profileMarker "ok ||PROFILE_READY|| a" = true)
    by (vm_compute; reflexivity).
  split; [exact H|].
  destruct (payload_and_reply_are_trimmed prompts clock random fresh
              (okReply "ok ||PROFILE_READY|| a") "ok ||PROFILE_READY|| a" eq_refl)
    as [Hp _].
  destruct (Hp H) as [Ht _]. exact Ht.
Defined.

Lemma prompt_reads_last_five_messages_only_when_restamped :
  List.length fiveSaid = 5 /\
  map contextView fiveSaid = map contextView fiveRestamped /\
  requestsOf
    (trace (fst (processUserMessage "hi" (setHistory ([welcome] ++ fiveSaid) fresh))))
  = requestsOf
      (trace (fst (processUserMessage "hi" (setHistory ([] ++ fiveRestamped) fresh)))).
Proof.
  assert (H1 : List.length fiveSaid = 5) by reflexivity.
  assert (H2 : map contextView fiveSaid = map contextView fiveRestamped)
    by reflexivity.
  split; [exact H1|]. split; [exact H2|].
  exact (prompt_reads_last_five_messages_only prompts clock random
           fresh "hi" [welcome] [] fiveSaid fiveRestamped H1 H2).
Defined.

Lemma callGemini_returns_first_candidate_text_only_on_success :
  snd (callGemini (fun _ => okReply "text") key mdl "prompt" None) = inr "text" /\
  credentialMissing key = false.
Proof.
  assert (H : snd (callGemini (fun _ => okReply "text") key mdl "prompt" None)
              = inr "text") by (vm_compute; reflexivity).
  split; [exact H|].
  destruct (callGemini_returns_first_candidate_text_only
              (fun _ => okReply "text") key mdl "prompt" None "text" H)
    as [Hkey _].
  exact Hkey.
Defined.

Lemma candidate_without_text_fails_with_TypeError_when_blocked :
  exists req e,
    fst (callGemini (fun _ => blockedReply) key mdl "prompt" None) = [req] /\
    snd (callGemini (fun _ => blockedReply) key mdl "prompt" None)
    = inl (ThrownError e) /\
    errName e = "TypeError".
Proof.
  assert (Hsent : exists req,
             fst (callGemini (fun _ => blockedReply) key mdl "prompt" None) = [req])
    by (eexists; vm_compute; reflexivity).
  destruct Hsent as [req Hsent].
  destruct (candidate_without_text_fails_with_TypeError
              (fun _ => blockedReply) key mdl "prompt" None
              req _ _ {| candContent := None |} []
              Hsent eq_refl eq_refl eq_refl eq_refl (or_introl eq_refl))
    as (e & Hr & Hn & _).
  exists req, e. split; [exact Hsent|]. split; [exact Hr | exact Hn].
Defined.

Lemma mergeMessages_appends_new_ids_once_on_a_reply :
  NoDup (map id [welcome]) /\
  NoDup (map id [said "x"]) /\
  NoDup (map id (mergeMessages [welcome] [said "x"])).
Proof.
  assert (H1 : NoDup (map id [welcome])) by (repeat constructor; intros []).
  assert (H2 : NoDup (map id [said "x"])) by (repeat constructor; intros []).
  split; [exact H1|]. split; [exact H2|].
  destruct (mergeMessages_appends_new_ids_once [welcome] [said "x"])
    as (_ & _ & _ & H).
  exact (H H1 H2).
Defined.

Lemma settings_save_only_usable_credentials_on_padded_key :
  handleSave "  AIzaSample  " " gemini-2.5-flash " false
  = Saved "AIzaSample" "gemini-2.5-flash" /\
  credentialMissing "AIzaSample" = false.
Proof.
  assert (H : handleSave "  AIzaSample  " " gemini-2.5-flash " false
              = Saved "AIzaSample" "gemini-2.5-flash")
    by (vm_compute; reflexivity).
  split; [exact H|].
  destruct (settings_save_only_usable_credentials
              "  AIzaSample  " " gemini-2.5-flash " false) as (Hsaved & _).
  destruct (Hsaved _ _ H) as (_ & _ & Hkey & _).
  exact Hkey.
Defined.

End LawInstances.

(** ** A blank credential outside the client *)

Section BlankCredential.
Import JsString Llm Agents Runtime Spec Sample.


End BlankCredential.
